(** * nbody: script/animation.py

    A shallow embedding of the particle-trajectory loader and animator
    [script/animation.py] (a Python 2 script), together with the library
    calls it is built from: the [float] builtin, file iteration, the
    [csv.reader] state machine, [numpy.array] / [numpy.shape] /
    [numpy.reshape], and the frame sequence of
    [matplotlib.animation.FuncAnimation].

    Conventions.
    - Byte strings ([str] of Python 2) are [string]; characters are [ascii].
    - Python ints are [Z]; [/] on ints is floor division ([Z.div]).
    - A Python float is represented by the exact value its literal denotes
      ([pyfloat]); rounding to binary64 is outside the embedding.  Two
      floats that are equal here are equal in Python.
    - An expression that may raise returns [result]; [main] records the
      exception together with the source line that raised it.
    - Memory is outside the embedding; the reader's field size limit is
      part of it. *)

From Stdlib Require Import List String Ascii Bool ZArith NArith QArith Lia.
Import ListNotations.

#[local] Open Scope string_scope.
#[local] Open Scope list_scope.
#[local] Open Scope Z_scope.

(* ================================================================== *)
(** ** Python builtins *)
(* ================================================================== *)

Module Py.

(** The exception classes the script can raise. *)
Inductive exception : Set :=
| IOError        (* open() on a path that cannot be opened *)
| csv_Error      (* _csv.Error *)
| ValueError
| IndexError.

Inductive result (A : Type) : Type :=
| Ok (a : A)
| Raise (e : exception).
Arguments Ok {A} a.
Arguments Raise {A} e.

Definition bind {A B} (r : result A) (k : A -> result B) : result B :=
  match r with
  | Ok a => k a
  | Raise e => Raise e
  end.

Notation "x <- r ;; k" := (bind r (fun x => k))
  (at level 61, r at next level, right associativity).

(** [map f xs] of Python 2 with an [f] that may raise: elements are
    converted left to right and the first exception propagates. *)
Fixpoint map_raise {A B} (f : A -> result B) (xs : list A) : result (list B) :=
  match xs with
  | [] => Ok []
  | x :: xs' =>
      y <- f x ;;
      ys <- map_raise f xs' ;;
      Ok (y :: ys)
  end.

(** Characters with a name. *)
Definition NUL : ascii := "000"%char.
Definition TAB : ascii := "009"%char.
Definition LF  : ascii := "010"%char.
Definition VT  : ascii := "011"%char.
Definition FF  : ascii := "012"%char.
Definition CR  : ascii := "013"%char.
Definition SP  : ascii := " "%char.

(** [Py_ISSPACE]: space, \t, \n, \v, \f, \r. *)
Definition Py_ISSPACE (c : ascii) : bool :=
  Ascii.eqb c SP || Ascii.eqb c TAB || Ascii.eqb c LF
  || Ascii.eqb c VT || Ascii.eqb c FF || Ascii.eqb c CR.

(** [Py_TOLOWER] on ASCII letters. *)
Definition Py_TOLOWER (c : ascii) : ascii :=
  let n := N_of_ascii c in
  if ((65 <=? n) && (n <=? 90))%N then ascii_of_N (n + 32) else c.

(** *** Floats *)

(** A float, by the exact value of the literal it was read from. *)
Inductive pyfloat : Type :=
| Finite (q : Q)
| Inf (negative : bool)
| NaN.

(** The float denoted by the exact rational [q] (kept in lowest terms, so
    that equal values are equal terms). *)
Definition F (q : Q) : pyfloat := Finite (Qred q).

Definition digit_of (c : ascii) : option Z :=
  let n := N_of_ascii c in
  if ((48 <=? n) && (n <=? 57))%N then Some (Z.of_N (n - 48)) else None.

(** The longest prefix of decimal digits, and what follows it. *)
Fixpoint digits (s : string) : list Z * string :=
  match s with
  | EmptyString => ([], s)
  | String c s' =>
      match digit_of c with
      | Some d => let (ds, r) := digits s' in (d :: ds, r)
      | None => ([], s)
      end
  end.

Definition Z_of_digits (ds : list Z) : Z :=
  fold_left (fun acc d => 10 * acc + d) ds 0.

Definition parse_sign (s : string) : bool * string :=
  match s with
  | String "-" r => (true, r)
  | String "+" r => (false, r)
  | _ => (false, s)
  end.

(** [case_insensitive_match s t]: [s] starts with the lower-case word [t];
    returns the remainder of [s]. *)
Fixpoint case_insensitive_match (s t : string) : option string :=
  match t, s with
  | EmptyString, _ => Some s
  | String ct t', String cs s' =>
      if Ascii.eqb (Py_TOLOWER cs) ct then case_insensitive_match s' t' else None
  | String _ _, EmptyString => None
  end.

(** [_Py_parse_inf_or_nan]: an optional sign followed by [inf],
    [infinity] or [nan] in any case.  [None] when nothing is consumed. *)
Definition _Py_parse_inf_or_nan (p : string) : option (pyfloat * string) :=
  let (negate, s) := parse_sign p in
  match case_insensitive_match s "inf" with
  | Some s1 =>
      match case_insensitive_match s1 "inity" with
      | Some s2 => Some (Inf negate, s2)
      | None => Some (Inf negate, s1)
      end
  | None =>
      match case_insensitive_match s "nan" with
      | Some s1 => Some (NaN, s1)
      | None => None
      end
  end.

(** The exponent part: [e] or [E], an optional sign and at least one
    digit; when the digits are missing nothing is consumed. *)
Definition parse_exponent (s : string) : Z * string :=
  match s with
  | String c r =>
      if Ascii.eqb (Py_TOLOWER c) "e" then
        let (esign, r1) := parse_sign r in
        match digits r1 with
        | ([], _) => (0, s)
        | (ds, r2) => ((if esign then - Z_of_digits ds else Z_of_digits ds), r2)
        end
      else (0, s)
  | EmptyString => (0, s)
  end.

(** [_Py_dg_strtod]: sign, digits, optional point and digits (at least one
    digit in all), optional exponent.  No white space, no hexadecimal, no
    inf or nan.  [None] when no number starts the string. *)
Definition _Py_dg_strtod (s00 : string) : option (pyfloat * string) :=
  let (sign, s1) := parse_sign s00 in
  let (ip, s2) := digits s1 in
  let (fp, s3) :=
    match s2 with
    | String "." r => digits r
    | _ => ([], s2)
    end in
  match ip ++ fp with
  | [] => None
  | ds =>
      let (e, s4) := parse_exponent s3 in
      let m := Z_of_digits ds in
      let q := (inject_Z (if sign then - m else m)
                * Qpower (inject_Z 10) (e - Z.of_nat (List.length fp)))%Q in
      Some (F q, s4)
  end.

(** [_PyOS_ascii_strtod]. *)
Definition _PyOS_ascii_strtod (nptr : string) : option (pyfloat * string) :=
  match _Py_dg_strtod nptr with
  | Some r => Some r
  | None => _Py_parse_inf_or_nan nptr
  end.

Fixpoint lstrip (s : string) : string :=
  match s with
  | String c s' => if Py_ISSPACE c then lstrip s' else s
  | EmptyString => s
  end.

(** [float(s)] for a [str] ([PyFloat_FromString]): leading white space is
    skipped, a number is read, and only white space may follow.  Anything
    else is a [ValueError]. *)
Definition float (s : string) : result pyfloat :=
  match _PyOS_ascii_strtod (lstrip s) with
  | None => Raise ValueError
  | Some (x, end_) =>
      match lstrip end_ with
      | EmptyString => Ok x
      | _ => Raise ValueError
      end
  end.

(** *** Files *)

(** Iterating over a file opened in mode ['rb']: the content is cut after
    every \n; each line keeps its terminator, the last line may lack one. *)
Fixpoint file_lines (s : string) : list string :=
  match s with
  | EmptyString => []
  | String c r =>
      if Ascii.eqb c LF then String c EmptyString :: file_lines r
      else match file_lines r with
           | [] => [String c EmptyString]
           | l :: ls => String c l :: ls
           end
  end.

End Py.

Import Py.

(* ================================================================== *)
(** ** csv.reader (the [_csv] module, dialect [excel]) *)
(* ================================================================== *)

Module Csv.

(** The dialect of [csv.reader(data_file)]: [excel], that is
    delimiter comma, quotechar the double quote (34), doublequote, no escapechar, no
    skipinitialspace, not strict, QUOTE_MINIMAL.  The parser below is
    [parse_process_char] with these values filled in; its two escape states
    are entered only on an escapechar and are left out. *)
Definition delimiter : ascii := ","%char.
Definition quotechar : ascii := "034"%char.

Inductive ParserState : Set :=
| START_RECORD
| START_FIELD
| IN_FIELD
| IN_QUOTED_FIELD
| QUOTE_IN_QUOTED_FIELD
| EAT_CRNL.

Record ReaderObj : Type := mkReader {
  fields : list string;   (* fields of the record being read *)
  state : ParserState;
  field : string          (* characters of the field being read *)
}.

Definition parse_reset : ReaderObj :=
  {| fields := []; state := START_RECORD; field := "" |}.

Definition parse_save_field (self : ReaderObj) : ReaderObj :=
  {| fields := fields self ++ [field self];
     state := state self;
     field := "" |}.

(** [csv.field_size_limit()], which the script leaves at its default. *)
Definition field_limit : Z := 131072.

(** [self->field_len], the number of characters of the field being read. *)
Definition field_len (self : ReaderObj) : Z :=
  Z.of_nat (String.length (field self)).

(** A character is added unless the field already holds [field_limit]
    characters. *)
Definition parse_add_char (self : ReaderObj) (c : ascii) : result ReaderObj :=
  if field_limit <=? field_len self then
    Raise csv_Error   (* field larger than field limit *)
  else
    Ok {| fields := fields self;
          state := state self;
          field := (field self ++ String c "")%string |}.

Definition set_state (self : ReaderObj) (st : ParserState) : ReaderObj :=
  {| fields := fields self; state := st; field := field self |}.

Definition is_newline (c : ascii) : bool := Ascii.eqb c LF || Ascii.eqb c CR.

(** After the end of a field at a line end: [NUL] is the end-of-line mark
    the reader feeds itself after every line. *)
Definition after_eol (c : ascii) : ParserState :=
  if Ascii.eqb c NUL then START_RECORD else EAT_CRNL.

Definition start_field (self : ReaderObj) (c : ascii) : result ReaderObj :=
  if is_newline c || Ascii.eqb c NUL then
    Ok (set_state (parse_save_field self) (after_eol c))
  else if Ascii.eqb c quotechar then
    Ok (set_state self IN_QUOTED_FIELD)
  else if Ascii.eqb c delimiter then
    Ok (parse_save_field self)
  else
    self' <- parse_add_char self c ;;
    Ok (set_state self' IN_FIELD).

Definition parse_process_char (self : ReaderObj) (c : ascii) : result ReaderObj :=
  match state self with
  | START_RECORD =>
      if Ascii.eqb c NUL then Ok self
      else if is_newline c then Ok (set_state self EAT_CRNL)
      else start_field (set_state self START_FIELD) c
  | START_FIELD => start_field self c
  | IN_FIELD =>
      if is_newline c || Ascii.eqb c NUL then
        Ok (set_state (parse_save_field self) (after_eol c))
      else if Ascii.eqb c delimiter then
        Ok (set_state (parse_save_field self) START_FIELD)
      else parse_add_char self c
  | IN_QUOTED_FIELD =>
      if Ascii.eqb c NUL then Ok self
      else if Ascii.eqb c quotechar then Ok (set_state self QUOTE_IN_QUOTED_FIELD)
      else parse_add_char self c
  | QUOTE_IN_QUOTED_FIELD =>
      if Ascii.eqb c quotechar then
        self' <- parse_add_char self c ;;
        Ok (set_state self' IN_QUOTED_FIELD)
      else if Ascii.eqb c delimiter then
        Ok (set_state (parse_save_field self) START_FIELD)
      else if is_newline c || Ascii.eqb c NUL then
        Ok (set_state (parse_save_field self) (after_eol c))
      else
        self' <- parse_add_char self c ;;
        Ok (set_state self' IN_FIELD)
  | EAT_CRNL =>
      if is_newline c then Ok self
      else if Ascii.eqb c NUL then Ok (set_state self START_RECORD)
      else Raise csv_Error   (* new-line character seen in unquoted field *)
  end.

(** The characters of one line, in order. *)
Fixpoint process_chars (self : ReaderObj) (line : string) : result ReaderObj :=
  match line with
  | EmptyString => Ok self
  | String c rest =>
      if Ascii.eqb c NUL then Raise csv_Error   (* line contains NULL byte *)
      else
        self' <- parse_process_char self c ;;
        process_chars self' rest
  end.

(** One line, then the end-of-line mark. *)
Definition process_line (self : ReaderObj) (line : string) : result ReaderObj :=
  self' <- process_chars self line ;;
  parse_process_char self' NUL.

(** What iterating over a reader gives: the rows it yields, in order, and
    how the iteration ends: [None] for StopIteration, [Some e] for an
    exception raised by the [next] call after the last row. *)
Definition rows_t : Type := list (list string) * option exception.

Definition yield (row : list string) (r : rows_t) : rows_t :=
  (row :: fst r, snd r).

(** The successive calls of [Reader_iternext], from the parser state
    [self] over the lines still to read.  A call takes lines until the
    parser is back in START_RECORD and yields the fields; it starts from
    [parse_reset].  At the end of input a record is yielded only when a
    field or a quoted field is open. *)
Fixpoint reader_from (self : ReaderObj) (lines : list string) : rows_t :=
  match lines with
  | [] =>
      if negb (String.eqb (field self) "")
         || match state self with IN_QUOTED_FIELD => true | _ => false end
      then ([fields (parse_save_field self)], None)
      else ([], None)
  | line :: rest =>
      match process_line self line with
      | Raise e => ([], Some e)
      | Ok self' =>
          match state self' with
          | START_RECORD => yield (fields self') (reader_from parse_reset rest)
          | _ => reader_from self' rest
          end
      end
  end.

(** [csv.reader(data_file)], iterated to the end. *)
Definition reader (data_file : list string) : rows_t :=
  reader_from parse_reset data_file.

End Csv.

(* ================================================================== *)
(** ** numpy *)
(* ================================================================== *)

Module Np.

(** An array element: a float64, or (dtype object) a Python list. *)
Inductive item : Type :=
| Float64 (x : pyfloat)
| Object (l : list pyfloat).

(** An array: its shape and its elements in C (row-major) order. *)
Record ndarray : Type := mkArray {
  shape : list Z;
  data : list item
}.

Definition len {A} (l : list A) : Z := Z.of_nat (List.length l).

(** [np.array(rows)] for a list of lists of floats: an empty list gives a
    float array of shape (0,); rows of one length C give a float array of
    shape (R, C); rows of differing lengths give a one-dimensional object
    array holding the R lists. *)
Definition array (rows : list (list pyfloat)) : ndarray :=
  match rows with
  | [] => {| shape := [0]; data := [] |}
  | r :: rs =>
      if forallb (fun r' => len r' =? len r) rs
      then {| shape := [len rows; len r]; data := map Float64 (List.concat rows) |}
      else {| shape := [len rows]; data := map Object rows |}
  end.

(** [t[i]] for a tuple and a constant index [i >= 0]. *)
Definition tuple_getitem {A} (t : list A) (i : nat) : result A :=
  match nth_error t i with
  | Some x => Ok x
  | None => Raise IndexError   (* tuple index out of range *)
  end.

Definition prod (dims : list Z) : Z := fold_right Z.mul 1 dims.

Definition size (a : ndarray) : Z := prod (shape a).

(** [_fix_unknown_dimension]: at most one negative entry in the new
    shape, which is replaced by the size divided by the product of the
    others; the sizes have to agree. *)
Definition fix_unknown_dimension (newshape : list Z) (s_original : Z)
  : result (list Z) :=
  let known := filter (fun d => 0 <=? d) newshape in
  let s_known := prod known in
  match (List.length newshape - List.length known)%nat with
  | O => if s_original =? s_known then Ok newshape else Raise ValueError
  | S O =>
      if (s_known =? 0) || negb (s_original mod s_known =? 0)
      then Raise ValueError
      else Ok (map (fun d => if 0 <=? d then d else s_original / s_known) newshape)
  | _ => Raise ValueError   (* can only specify one unknown dimension *)
  end.

(** [np.reshape(a, newshape)]: same elements, in the same order. *)
Definition reshape (a : ndarray) (newshape : list Z) : result ndarray :=
  dims <- fix_unknown_dimension newshape (size a) ;;
  Ok {| shape := dims; data := data a |}.

(** [range(n)]. *)
Definition range (n : Z) : list Z := map Z.of_nat (seq 0 (Z.to_nat n)).

(** An index into an axis of length [dim]; negative indices count from
    the end. *)
Definition check_index (i dim : Z) : result Z :=
  if (0 <=? i) && (i <? dim) then Ok i
  else if (- dim <=? i) && (i <? 0) then Ok (i + dim)
  else Raise IndexError.

Definition flat_get (a : ndarray) (k : Z) : result item :=
  match nth_error (data a) (Z.to_nat k) with
  | Some x => Ok x
  | None => Raise IndexError
  end.

(** [a[i, j, k]] for a 3-axis array. *)
Definition getitem3 (a : ndarray) (i j k : Z) : result item :=
  match shape a with
  | [d0; d1; d2] =>
      i' <- check_index i d0 ;;
      j' <- check_index j d1 ;;
      k' <- check_index k d2 ;;
      flat_get a ((i' * d1 + j') * d2 + k')
  | _ => Raise IndexError   (* too many indices *)
  end.

(** [a[i, :, k]] for a 3-axis array: along the middle axis. *)
Definition getitem_i_all_k (a : ndarray) (i k : Z) : result (list item) :=
  match shape a with
  | [d0; d1; d2] =>
      i' <- check_index i d0 ;;
      k' <- check_index k d2 ;;
      map_raise (fun j => flat_get a ((i' * d1 + j) * d2 + k')) (range d1)
  | _ => Raise IndexError   (* too many indices *)
  end.

End Np.

(* ================================================================== *)
(** ** matplotlib: what the script uses of it *)
(* ================================================================== *)

Module Mpl.
Import Np.

(** The collection returned by [ax.scatter]; [animate] assigns its
    [_offsets3d], the coordinates it displays. *)
Record Path3DCollection : Type := mkPoints {
  _offsets3d : list item * list item * list item
}.

(** [FuncAnimation(fig, func, interval=..., frames=...)] with an integer
    [frames]. *)
Record FuncAnimation : Type := mkAnimation {
  func : Z -> Path3DCollection -> result Path3DCollection;
  interval : Z;
  frames : Z
}.

(** The frame sequence of an animation whose [frames] is an integer:
    [xrange(frames)].  Each element is passed to [func], in order. *)
Definition new_frame_seq (a : FuncAnimation) : list Z := range (frames a).

(** One pass over a frame sequence: [func] is called once per frame on the
    collection the previous call left; an exception stops the pass.  The
    timer that paces the calls and restarts the sequence is outside the
    embedding. *)
Fixpoint draw_frames (f : Z -> Path3DCollection -> result Path3DCollection)
    (frame_seq : list Z) (points : Path3DCollection) : result Path3DCollection :=
  match frame_seq with
  | [] => Ok points
  | i :: rest =>
      points' <- f i points ;;
      draw_frames f rest points'
  end.

Definition play (a : FuncAnimation) (points : Path3DCollection)
  : result Path3DCollection :=
  draw_frames (func a) (new_frame_seq a) points.

End Mpl.

(* ================================================================== *)
(** ** script/animation.py *)
(* ================================================================== *)

Module Animation.
Import Csv Np Mpl.

(** What the script does to the outside, in order. *)
Inductive effect : Type :=
| print (s : string)
| open_ (name mode : string)
| plt_figure
| p3_Axes3D
| set_xlim3d (lo hi : pyfloat)
| set_xlabel (s : string)
| set_ylim3d (lo hi : pyfloat)
| set_ylabel (s : string)
| set_zlim3d (lo hi : pyfloat)
| set_zlabel (s : string)
| ax_scatter (points : Path3DCollection)
| anim_FuncAnimation (a : FuncAnimation)
| plt_draw
| plt_show.

(** How [main] ends: it returns, or an exception leaves it, raised by the
    statement at [line] of the script. *)
Inductive outcome : Type :=
| Returned
| Raised (e : exception) (line : nat).

(** A value, or an exception with the line that raised it. *)
Inductive at_line (A : Type) : Type :=
| Done (a : A)
| Fail (e : exception) (line : nat).
Arguments Done {A} a.
Arguments Fail {A} e line.

Definition on_line {A} (line : nat) (r : result A) : at_line A :=
  match r with
  | Ok a => Done a
  | Raise e => Fail e line
  end.

(** The file system, as far as [open(name, 'rb')] sees it. *)
Definition filesystem : Type := string -> option string.

(** Lines 16 to 19, the body of the loop over the rows the reader yields:
<<
    for row in data_reader:
        if not row:
            continue
        particles.append(map(float, row[1:]))
>> *)
Fixpoint for_rows (rows : list (list string)) (particles : list (list pyfloat))
  : result (list (list pyfloat)) :=
  match rows with
  | [] => Ok particles
  | row :: rest =>
      match row with
      | [] => for_rows rest particles
      | _ :: _ =>
          coords <- map_raise float (skipn 1 row) ;;
          for_rows rest (particles ++ [coords])
      end
  end.

(** The whole loop: a conversion error (line 19) on a row comes before an
    error of the reader (line 16) on a later line. *)
Definition read_particles (data_reader : rows_t) : at_line (list (list pyfloat)) :=
  match for_rows (fst data_reader) [] with
  | Raise e => Fail e 19
  | Ok particles =>
      match snd data_reader with
      | Some e => Fail e 16
      | None => Done particles
      end
  end.

(** Lines 20 to 22:
<<
    particles = np.array(particles)
    num_particles = np.shape(particles)[1] / 3
    particles = np.reshape(particles, (-1, num_particles, 3))
>> *)
Definition num_particles_of (particles : ndarray) : result Z :=
  width <- tuple_getitem (shape particles) 1 ;;
  Ok (width / 3).

Definition to_dataset (particles : list (list pyfloat)) : at_line ndarray :=
  let particles := array particles in
  match num_particles_of particles with
  | Raise e => Fail e 21
  | Ok num_particles => on_line 22 (reshape particles [-1; num_particles; 3])
  end.

(** Lines 13 to 22, on the content of the opened file. *)
Definition load (content : string) : at_line ndarray :=
  match read_particles (reader (file_lines content)) with
  | Fail e line => Fail e line
  | Done particles => to_dataset particles
  end.

(** [(particles[i,:,0], particles[i,:,1], particles[i,:,2])]. *)
Definition coordinates (particles : ndarray) (i : Z)
  : result (list item * list item * list item) :=
  xs <- getitem_i_all_k particles i 0 ;;
  ys <- getitem_i_all_k particles i 1 ;;
  zs <- getitem_i_all_k particles i 2 ;;
  Ok (xs, ys, zs).

(** Lines 36 to 40, the closure [animate]; [particles] is the variable it
    captures and [points] the collection it assigns to. *)
Definition animate (particles : ndarray) (i : Z) (points : Path3DCollection)
  : result Path3DCollection :=
  offsets <- coordinates particles i ;;
  Ok {| _offsets3d := offsets |}.

(** Line 42. *)
Definition num_frames_of (particles : ndarray) : result Z :=
  steps <- tuple_getitem (shape particles) 0 ;;
  Ok (steps - 1).

(** Lines 24 to 47. *)
Definition show (particles : ndarray) : list effect * outcome :=
  let axes :=
    [ plt_figure; p3_Axes3D;
      set_xlim3d (F 0) (F 1); set_xlabel "X";
      set_ylim3d (F 0) (F 1); set_ylabel "Y";
      set_zlim3d (F 0) (F 1); set_zlabel "Z" ] in
  match coordinates particles 0 with
  | Raise e => (axes, Raised e 34)
  | Ok offsets =>
      let points := {| _offsets3d := offsets |} in
      match num_frames_of particles with
      | Raise e => (axes ++ [ax_scatter points], Raised e 42)
      | Ok num_frames =>
          let animation :=
            {| func := animate particles; interval := 10; frames := num_frames |} in
          (axes ++ [ax_scatter points; anim_FuncAnimation animation;
                    plt_draw; plt_show],
           Returned)
      end
  end.

Definition usage : string := "Expecting data file name, none provided.".

(** [main()], with [sys.argv] and the file system as arguments. *)
Definition main (argv : list string) (fs : filesystem) : list effect * outcome :=
  if negb (len argv =? 2) then ([print usage], Returned)
  else
    let name := nth 1 argv "" in
    match fs name with
    | None => ([open_ name "rb"], Raised IOError 14)
    | Some content =>
        match load content with
        | Fail e line => ([open_ name "rb"], Raised e line)
        | Done particles =>
            let (effects, out) := show particles in
            (open_ name "rb" :: effects, out)
        end
    end.

End Animation.

Import Csv Np Mpl Animation.

(* ================================================================== *)
(** ** Vocabulary of the properties *)
(* ================================================================== *)

(** [not row]: the reader gave no field at all. *)
Definition blank (row : list string) : bool :=
  match row with
  | [] => true
  | _ :: _ => false
  end.

Definition nonblank (row : list string) : bool := negb (blank row).

(** The rows that are not blank, in order. *)
Definition nonblank_rows (rows : list (list string)) : list (list string) :=
  filter nonblank rows.

(** [row] with its first field replaced by [f] of it. *)
Definition relabel (f : string -> string) (row : list string) : list string :=
  match row with
  | [] => []
  | label :: coords => f label :: coords
  end.

(** [map(float, row[1:])], the conversion of one non-blank row. *)
Definition convert (row : list string) : result (list pyfloat) :=
  map_raise float (skipn 1 row).

(** [np.shape(a)[0]], the number of time steps of a dataset. *)
Definition time_steps (a : ndarray) : result Z := tuple_getitem (shape a) 0.

(** The nested lists of a 3-axis array, [a.tolist()]; defined on 3-axis
    arrays only. *)
Definition tolist3 (a : ndarray) : option (list (list (list item))) :=
  match shape a with
  | [d0; d1; d2] =>
      match
        map_raise (fun i =>
          map_raise (fun j =>
            map_raise (fun k => getitem3 a i j k) (range d2)) (range d1))
          (range d0)
      with
      | Ok l => Some l
      | Raise _ => None
      end
  | _ => None
  end.


Fixpoint all_chars (p : ascii -> bool) (s : string) : bool :=
  match s with
  | EmptyString => true
  | String c s' => p c && all_chars p s'
  end.

(** *** Inputs *)

Module Inputs.

(** A text line: [s] followed by \n. *)
Definition line (s : string) : string := (s ++ String LF "")%string.

Fixpoint unlines (ls : list string) : string :=
  match ls with
  | [] => ""
  | l :: ls' => (line l ++ unlines ls')%string
  end.

(** [s] between double quotes. *)
Definition quoted (s : string) : string :=
  String quotechar (s ++ String quotechar "")%string.

(** A file system that holds one file. *)
Definition one_file (name content : string) : filesystem :=
  fun n => if String.eqb n name then Some content else None.

Definition two_rows : string :=
  unlines ["p1,0.1,0.2,0.3,0.4,0.5,0.6"; "p2,0.2,0.3,0.4,0.5,0.6,0.7"].

(** The same two rows with \r\n line ends, and without the last line end. *)
Definition two_rows_crlf : string :=
  ("p1,0.1,0.2,0.3,0.4,0.5,0.6" ++ String CR (String LF "")
   ++ "p2,0.2,0.3,0.4,0.5,0.6,0.7" ++ String CR (String LF ""))%string.

Definition two_rows_unterminated : string :=
  (line "p1,0.1,0.2,0.3,0.4,0.5,0.6" ++ "p2,0.2,0.3,0.4,0.5,0.6,0.7")%string.

(** Two rows that hold a label and nothing else. *)
Definition labels_only : string := unlines ["a"; "b"].

(** Two rows of different widths, every field a number. *)
Definition ragged : string := unlines ["a,1,2,3"; "b,1,2,3,4,5,6"].

(** Six rows of seven coordinates: row r, column c holds 10 r + c. *)
Definition seven_columns : string :=
  unlines [ "s0,0,1,2,3,4,5,6";
            "s1,10,11,12,13,14,15,16";
            "s2,20,21,22,23,24,25,26";
            "s3,30,31,32,33,34,35,36";
            "s4,40,41,42,43,44,45,46";
            "s5,50,51,52,53,54,55,56" ].

(** Two time steps of one particle. *)
Definition two_steps : string := unlines ["a,0,0,0"; "b,1,1,1"].

(** The same, with blank lines around the second. *)
Definition two_steps_spaced : string := unlines ["a,0,0,0"; ""; "b,1,1,1"; ""].

(** Lines that hold no row: empty ones, ended by \n or by \r\n. *)
Definition blank_lines : string :=
  String LF (String CR (String LF (String LF ""))).

End Inputs.

Import Inputs.

(** A float64 element, by its exact value. *)
Definition float64 (q : Q) : item := Float64 (F q).

(** A character that an unquoted field can hold and that means nothing to
    the reader: not NUL, not a line end, not the delimiter, not the quote. *)
Definition is_plain_char (c : ascii) : bool :=
  negb (Ascii.eqb c NUL || is_newline c
        || Ascii.eqb c delimiter || Ascii.eqb c quotechar).

(** [",".join(row)]. *)
Fixpoint join (row : list string) : string :=
  match row with
  | [] => ""
  | f :: rest =>
      match rest with
      | [] => f
      | _ :: _ => (f ++ String delimiter (join rest))%string
      end
  end.

(** A field that the reader takes whole as an unquoted field: plain
    characters, no more of them than [field_limit]. *)
Definition plain_field (f : string) : bool :=
  all_chars is_plain_char f && (Z.of_nat (String.length f) <=? field_limit).

(** A row that one plain line can hold: plain fields, and not the single
    empty field (its line would be empty, which is the line of the row
    without fields). *)
Definition plain_row (row : list string) : bool :=
  forallb plain_field row
  && match row with
     | [EmptyString] => false
     | _ => true
     end.


(** The parser after the characters of a plain field [f] that began at
    START_FIELD, with [acc] the fields before it. *)
Definition after_field (acc : list string) (f : string) : ReaderObj :=
  match f with
  | EmptyString => mkReader acc START_FIELD ""
  | String _ _ => mkReader acc IN_FIELD f
  end.

(** The text of a file with one line per row, each ended by \n. *)
Definition write_rows (rows : list (list string)) : string :=
  unlines (map join rows).

(** The same with another line end after each row. *)
Fixpoint write_rows_with (eol : string) (rows : list (list string)) : string :=
  match rows with
  | [] => ""
  | row :: rest => (join row ++ eol ++ write_rows_with eol rest)%string
  end.

Definition CRLF : string := String CR (String LF "").

(** Lines 24 to 31: the figure, the axes, their limits and labels. *)
Definition axes_setup : list effect :=
  [ plt_figure; p3_Axes3D;
    set_xlim3d (F 0) (F 1); set_xlabel "X";
    set_ylim3d (F 0) (F 1); set_ylabel "Y";
    set_zlim3d (F 0) (F 1); set_zlabel "Z" ].

(** The position of element [t][p][k] in the elements of an array with
    [n] particles, in C order. *)
Definition flat_index (n t p k : Z) : nat := Z.to_nat ((t * n + p) * 3 + k).

(* ================================================================== *)
(** ** Properties *)
(* ================================================================== *)

(** *** The library models at work *)

Example float_decimal : float "0.1" = Ok (F 0.1). Proof. reflexivity. Qed.
Example float_spaces_exponent : float " -2.50e1 " = Ok (F (-25)). Proof. reflexivity. Qed.
Example float_point_first : float ".5" = Ok (F 0.5). Proof. reflexivity. Qed.
Example float_point_last : float "5." = Ok (F 5). Proof. reflexivity. Qed.
Example float_infinity : float "-Infinity" = Ok (Inf true). Proof. reflexivity. Qed.
Example float_nan : float "+nan" = Ok NaN. Proof. reflexivity. Qed.
Example float_label : float "p1" = Raise ValueError. Proof. reflexivity. Qed.
Example float_empty : float "" = Raise ValueError. Proof. reflexivity. Qed.
Example float_no_digit : float "." = Raise ValueError. Proof. reflexivity. Qed.
Example float_no_exponent_digit : float "1e" = Raise ValueError. Proof. reflexivity. Qed.
Example float_two_numbers : float "1 2" = Raise ValueError. Proof. reflexivity. Qed.

Example file_lines_keep_ends :
  file_lines (String "a" (String LF (String LF (String "b" ""))))
  = [String "a" (String LF ""); String LF ""; "b"].
Proof. reflexivity. Qed.

Example reader_quoted_field :
  reader [line ("c," ++ quoted "x,y" ++ ",z")%string] = ([["c"; "x,y"; "z"]], None).
Proof. reflexivity. Qed.

Example reader_empty_fields : reader [line ","] = ([[""; ""]], None).
Proof. reflexivity. Qed.

Example reader_crlf : reader [String "a" (String CR (String LF ""))] = ([["a"]], None).
Proof. reflexivity. Qed.

Example reader_quoted_newline :
  reader (file_lines (line (quoted (line "ab" ++ "c")%string)))
  = ([[(line "ab" ++ "c")%string]], None).
Proof. reflexivity. Qed.

(** A carriage return in the middle of a line ends the record; what
    follows it on the line is an error of the reader. *)
Example reader_bare_CR :
  reader [line (String " " (String CR " "))] = ([], Some csv_Error).
Proof. reflexivity. Qed.

Example reader_NUL : reader [line (String NUL "")] = ([], Some csv_Error).
Proof. reflexivity. Qed.

Example array_empty : array [] = {| shape := [0]; data := [] |}.
Proof. reflexivity. Qed.

Example array_no_columns : array [[]; []] = {| shape := [2; 0]; data := [] |}.
Proof. reflexivity. Qed.

Example array_differing_lengths :
  array [[F 1]; [F 1; F 2]]
  = {| shape := [2]; data := [Object [F 1]; Object [F 1; F 2]] |}.
Proof. reflexivity. Qed.

Example reshape_infers_first_axis :
  reshape {| shape := [2; 6]; data := map float64 [1; 2; 3; 4; 5; 6; 7; 8; 9; 10; 11; 12]%Q |}
          [-1; 2; 3]
  = Ok {| shape := [2; 2; 3];
          data := map float64 [1; 2; 3; 4; 5; 6; 7; 8; 9; 10; 11; 12]%Q |}.
Proof. reflexivity. Qed.

Example reshape_zero_known_size :
  reshape {| shape := [2; 0]; data := [] |} [-1; 0; 3] = Raise ValueError.
Proof. reflexivity. Qed.

Example main_missing_file :
  main ["animation.py"; "missing.csv"] (one_file "data.csv" two_rows)
  = ([open_ "missing.csv" "rb"], Raised IOError 14).
Proof. reflexivity. Qed.

Example main_malformed_number :
  main ["animation.py"; "data.csv"] (one_file "data.csv" (unlines ["a,1,2,x"]))
  = ([open_ "data.csv" "rb"], Raised ValueError 19).
Proof. reflexivity. Qed.

(** *** The command line *)

Lemma main_with_file (argv : list string) (fs : filesystem) (content : string) :
  len argv = 2 ->
  fs (nth 1 argv "") = Some content ->
  main argv fs =
    match load content with
    | Fail e line => ([open_ (nth 1 argv "") "rb"], Raised e line)
    | Done particles =>
        (open_ (nth 1 argv "") "rb" :: fst (show particles), snd (show particles))
    end.
Proof.
  intros Hlen Hfs. unfold main.
  rewrite Hlen, Z.eqb_refl. cbn [negb]. rewrite Hfs.
  destruct (load content); [destruct (show a) | ]; reflexivity.
Qed.

(** C5.  With an argument count other than one (so [len(sys.argv)] is not
    2: no argument, or two or more) [main] prints the usage message and
    returns; that is all it does: no file is opened whatever the file
    system holds, and no exception leaves it. *)
Theorem C5_wrong_argument_count (argv : list string) (fs : filesystem) :
  len argv <> 2 ->
  main argv fs = ([print usage], Returned)
  /\ (forall name mode, ~ In (open_ name mode) (fst (main argv fs))).
Proof.
  intros Hlen.
  assert (Hmain : main argv fs = ([print usage], Returned)).
  { unfold main. destruct (Z.eqb_spec (len argv) 2) as [E | _]; [contradiction | reflexivity]. }
  split; [exact Hmain | ].
  intros name mode. rewrite Hmain. cbn.
  intros [H | []]. discriminate H.
Qed.

Lemma C5_wrong_argument_count_witness :
  (len ["animation.py"] <> 2
   /\ main ["animation.py"] (one_file "data.csv" two_rows) = ([print usage], Returned))
  /\ (len ["animation.py"; "a.csv"; "b.csv"] <> 2
      /\ main ["animation.py"; "a.csv"; "b.csv"] (one_file "a.csv" two_rows)
         = ([print usage], Returned)).
Proof.
  split; (split; [vm_compute; discriminate | ]).
  - apply (C5_wrong_argument_count ["animation.py"] (one_file "data.csv" two_rows)).
    vm_compute; discriminate.
  - apply (C5_wrong_argument_count ["animation.py"; "a.csv"; "b.csv"]
             (one_file "a.csv" two_rows)).
    vm_compute; discriminate.
Defined.

(** *** The loop over the rows *)

Lemma for_rows_blank (rest : list (list string)) (particles : list (list pyfloat)) :
  for_rows ([] :: rest) particles = for_rows rest particles.
Proof. reflexivity. Qed.

Lemma for_rows_nonblank (label : string) (coords : list string)
    (rest : list (list string)) (particles : list (list pyfloat)) :
  for_rows ((label :: coords) :: rest) particles =
    (cs <- map_raise float coords ;; for_rows rest (particles ++ [cs])).
Proof. reflexivity. Qed.

Lemma for_rows_relabel (f : string -> string) (rows : list (list string)) :
  forall particles,
    for_rows (map (relabel f) rows) particles = for_rows rows particles.
Proof.
  induction rows as [| row rows IH]; intros particles; [reflexivity | ].
  destruct row as [| label coords]; cbn [map relabel].
  - rewrite !for_rows_blank. apply IH.
  - rewrite !for_rows_nonblank.
    destruct (map_raise float coords) as [cs | e]; cbn [bind]; [apply IH | reflexivity].
Qed.


(** *** Worked inputs *)

(** C2.  The two rows [p1,0.1,0.2,0.3,0.4,0.5,0.6] and
    [p2,0.2,0.3,0.4,0.5,0.6,0.7] load as the (2, 2, 3) array
    [[[0.1,0.2,0.3],[0.4,0.5,0.6]], [[0.2,0.3,0.4],[0.5,0.6,0.7]]];
    so they do with \r\n line ends and with no line end after the last
    row. *)
Theorem C2_two_rows_example :
  let expected :=
    map (map (map float64))
      [ [ [0.1; 0.2; 0.3]; [0.4; 0.5; 0.6] ];
        [ [0.2; 0.3; 0.4]; [0.5; 0.6; 0.7] ] ]%Q in
  (exists a,
      load two_rows = Done a
      /\ shape a = [2; 2; 3]
      /\ tolist3 a = Some expected)
  /\ load two_rows_crlf = load two_rows
  /\ load two_rows_unterminated = load two_rows.
Proof.
  split.
  - eexists. split; [vm_compute; reflexivity | ].
    split; vm_compute; reflexivity.
  - split; vm_compute; reflexivity.
Qed.

(** C8.  A rectangular input whose width is no multiple of 3 can load
    without any error.  Six rows of seven coordinates: the particle count is
    7 / 3 = 2 (floor division), 6 * 7 = 42 elements are a multiple of
    3 * 2, so the reshape succeeds and gives seven time steps for six rows;
    [main] returns normally.  Time step 1 of the dataset starts with the
    last coordinate of row 0 followed by the first coordinates of row 1. *)
Theorem C8_width_not_multiple_of_3_loads :
  exists content rows particles a,
    reader (file_lines content) = (rows, None)
    /\ len rows = 6
    /\ Forall (fun row => len (skipn 1 row) = 7) rows
    /\ 7 mod 3 <> 0
    /\ read_particles (rows, None) = Done particles
    /\ num_particles_of (array particles) = Ok (7 / 3)
    /\ 7 / 3 = 2
    /\ (6 * 7) mod (3 * (7 / 3)) = 0
    /\ load content = Done a
    /\ shape a = [7; 2; 3]
    /\ time_steps a = Ok 7
    /\ 7 <> len rows
    /\ snd (main ["animation.py"; "data.csv"] (one_file "data.csv" content)) = Returned
    /\ nth_error rows 0 = Some ["s0"; "0"; "1"; "2"; "3"; "4"; "5"; "6"]
    /\ nth_error rows 1 = Some ["s1"; "10"; "11"; "12"; "13"; "14"; "15"; "16"]
    /\ getitem3 a 1 0 0 = Ok (float64 6)
    /\ getitem3 a 1 0 1 = Ok (float64 10)
    /\ getitem3 a 1 0 2 = Ok (float64 11).
Proof.
  exists seven_columns.
  eexists. eexists. eexists.
  split; [vm_compute; reflexivity | ].
  split; [vm_compute; reflexivity | ].
  split; [repeat constructor | ].
  split; [vm_compute; discriminate | ].
  split; [vm_compute; reflexivity | ].
  repeat (split; [vm_compute; first [reflexivity | discriminate] | ]).
  vm_compute; reflexivity.
Qed.

(** The claim C1 at its two edges.  Two rows that hold only a label have
    C = 0 coordinate columns each, and 0 is divisible by 3, yet no dataset
    of shape (2, 0, 3) comes out: the reshape raises ValueError.  And an
    empty file has R = 0 rows, each of them (there is none) of any width C,
    yet no dataset of shape (0, C/3, 3) comes out: line 21 raises
    IndexError. *)
Lemma C1_counterexample_no_coordinates :
  (reader (file_lines labels_only) = ([["a"]; ["b"]], None)
   /\ Forall (fun row => len (skipn 1 row) = 0) [["a"]; ["b"]]
   /\ 0 mod 3 = 0
   /\ load labels_only = Fail ValueError 22
   /\ ~ (exists a, load labels_only = Done a /\ shape a = [2; 0 / 3; 3]))
  /\ (reader (file_lines "") = ([], None)
      /\ load "" = Fail IndexError 21
      /\ ~ (exists a, load "" = Done a)).
Proof.
  assert (H : load labels_only = Fail ValueError 22) by (vm_compute; reflexivity).
  assert (H0 : load "" = Fail IndexError 21) by (vm_compute; reflexivity).
  split.
  - split; [vm_compute; reflexivity | ].
    split; [repeat constructor | ].
    split; [reflexivity | ].
    split; [exact H | ].
    intros [a [Ha _]]. rewrite H in Ha. discriminate Ha.
  - split; [vm_compute; reflexivity | ].
    split; [exact H0 | ].
    intros [a Ha]. rewrite H0 in Ha. discriminate Ha.
Qed.

(** The claim C3 at two rows of widths 4 and 7: the exception is the
    IndexError of line 21 ([np.shape(particles)[1]]), the reshape of line 22
    is not reached. *)
Lemma C3_counterexample_not_at_reshape :
  reader (file_lines ragged)
    = ([["a"; "1"; "2"; "3"]; ["b"; "1"; "2"; "3"; "4"; "5"; "6"]], None)
  /\ load ragged = Fail IndexError 21
  /\ ~ (exists e, load ragged = Fail e 22).
Proof.
  assert (H : load ragged = Fail IndexError 21) by (vm_compute; reflexivity).
  repeat split; try (vm_compute; reflexivity).
  intros [e He]. rewrite H in He. discriminate He.
Qed.

(** The claim C6 at six non-blank rows of seven coordinates: the dataset
    has seven time steps. *)
Lemma C6_counterexample_seven_steps :
  exists a,
    len (nonblank_rows (fst (reader (file_lines seven_columns)))) = 6
    /\ snd (reader (file_lines seven_columns)) = None
    /\ load seven_columns = Done a
    /\ time_steps a = Ok 7
    /\ time_steps a <> Ok 6.
Proof.
  eexists.
  split; [vm_compute; reflexivity | ].
  split; [vm_compute; reflexivity | ].
  split; [vm_compute; reflexivity | ].
  split; vm_compute; [reflexivity | discriminate].
Qed.

(** C4, on two time steps.  The dataset has T = 2 steps and [main]
    registers [animate] for T - 1 = 1 frame, so the frame sequence is [0]:
    the one call of [animate] shows time step 0 again, which the scatter plot
    already shows, and time step 1, the only step after the first, is
    never an argument of [animate]. *)
Theorem C4_last_time_step_not_shown :
  exists particles first animation,
    load two_steps = Done particles
    /\ time_steps particles = Ok 2
    /\ main ["animation.py"; "data.csv"] (one_file "data.csv" two_steps)
       = ([ open_ "data.csv" "rb"; plt_figure; p3_Axes3D;
            set_xlim3d (F 0) (F 1); set_xlabel "X";
            set_ylim3d (F 0) (F 1); set_ylabel "Y";
            set_zlim3d (F 0) (F 1); set_zlabel "Z";
            ax_scatter first; anim_FuncAnimation animation;
            plt_draw; plt_show ], Returned)
    /\ func animation = animate particles
    /\ frames animation = 1
    /\ new_frame_seq animation = [0]
    /\ ~ In 1 (new_frame_seq animation)
    /\ coordinates particles 0 = Ok ([float64 0], [float64 0], [float64 0])
    /\ coordinates particles 1 = Ok ([float64 1], [float64 1], [float64 1])
    /\ _offsets3d first = ([float64 0], [float64 0], [float64 0])
    /\ play animation first = Ok first.
Proof.
  eexists. eexists. eexists.
  split; [vm_compute; reflexivity | ].
  split; [vm_compute; reflexivity | ].
  split; [vm_compute; reflexivity | ].
  split; [reflexivity | ].
  split; [reflexivity | ].
  split; [reflexivity | ].
  split; [cbn; intros [H | []]; discriminate H | ].
  repeat (split; [vm_compute; reflexivity | ]).
  vm_compute; reflexivity.
Qed.

(** *** Facts about the library models *)

Lemma map_raise_Forall2 {A B} (f : A -> result B) (xs : list A) :
  forall ys, map_raise f xs = Ok ys <-> Forall2 (fun x y => f x = Ok y) xs ys.
Proof.
  induction xs as [| x xs IH]; intros ys; cbn [map_raise].
  - split.
    + intros H. injection H as <-. constructor.
    + intros H. inversion H. reflexivity.
  - split.
    + destruct (f x) as [y | e] eqn:Hx; cbn [bind]; [ | discriminate].
      destruct (map_raise f xs) as [ys' | e] eqn:Hxs; cbn [bind]; [ | discriminate].
      intros H. injection H as <-. constructor; [exact Hx | ]. apply IH. reflexivity.
    + intros H. inversion H as [| x' y xs' ys' Hx Hrest]; subst.
      rewrite Hx. cbn [bind].
      apply IH in Hrest. rewrite Hrest. reflexivity.
Qed.

Lemma map_raise_total {A B} (f : A -> result B) (xs : list A) :
  Forall (fun x => exists y, f x = Ok y) xs ->
  exists ys, map_raise f xs = Ok ys.
Proof.
  induction 1 as [| x xs [y Hy] _ [ys IH]]; cbn [map_raise].
  - eexists; reflexivity.
  - rewrite Hy, IH. eexists; reflexivity.
Qed.

(** The loop appends the conversions of the non-blank rows, in order. *)
Lemma for_rows_spec (rows : list (list string)) :
  forall particles,
    for_rows rows particles =
      (converted <- map_raise convert (nonblank_rows rows) ;;
       Ok (particles ++ converted)).
Proof.
  induction rows as [| row rows IH]; intros particles.
  - cbn. rewrite app_nil_r. reflexivity.
  - destruct row as [| label coords].
    + rewrite for_rows_blank. cbn [nonblank_rows filter nonblank blank negb]. apply IH.
    + rewrite for_rows_nonblank.
      cbn [nonblank_rows filter nonblank blank negb map_raise].
      unfold convert at 1. cbn [skipn].
      destruct (map_raise float coords) as [cs | e]; cbn [bind]; [ | reflexivity].
      rewrite IH. fold (nonblank_rows rows).
      destruct (map_raise convert (nonblank_rows rows)) as [css | e]; cbn [bind];
        [ | reflexivity].
      rewrite <- app_assoc. reflexivity.
Qed.

Lemma nonblank_rows_idempotent (rows : list (list string)) :
  nonblank_rows (nonblank_rows rows) = nonblank_rows rows.
Proof.
  unfold nonblank_rows.
  induction rows as [| row rows IH]; [reflexivity | ].
  cbn [filter]. destruct (nonblank row) eqn:E; [ | exact IH].
  cbn [filter]. rewrite E, IH. reflexivity.
Qed.

Lemma for_rows_skips_blank (rows : list (list string)) (particles : list (list pyfloat)) :
  for_rows rows particles = for_rows (nonblank_rows rows) particles.
Proof.
  rewrite (for_rows_spec rows), (for_rows_spec (nonblank_rows rows)).
  rewrite nonblank_rows_idempotent. reflexivity.
Qed.

Lemma for_rows_Ok (rows : list (list string)) (particles : list (list pyfloat)) :
  for_rows rows [] = Ok particles <->
  Forall2 (fun row coords => convert row = Ok coords) (nonblank_rows rows) particles.
Proof.
  rewrite for_rows_spec, <- map_raise_Forall2.
  destruct (map_raise convert (nonblank_rows rows)); cbn; split; congruence.
Qed.

Lemma len_nonneg {A} (l : list A) : 0 <= len l.
Proof. unfold len. lia. Qed.

Lemma Forall2_len {A B} (R : A -> B -> Prop) (xs : list A) (ys : list B) :
  Forall2 R xs ys -> len xs = len ys.
Proof. intros H. unfold len. f_equal. eapply Forall2_length; eassumption. Qed.

Lemma convert_len (row : list string) (coords : list pyfloat) :
  convert row = Ok coords -> len coords = len (skipn 1 row).
Proof.
  unfold convert. intros H. apply map_raise_Forall2 in H.
  symmetry. eapply Forall2_len; eassumption.
Qed.

Lemma Forall2_In_left {A B} (R : A -> B -> Prop) (xs : list A) (ys : list B) (x : A) :
  Forall2 R xs ys -> In x xs -> exists y, In y ys /\ R x y.
Proof.
  induction 1 as [| x' y' xs ys Hxy _ IH]; intros Hin; [destruct Hin | ].
  destruct Hin as [-> | Hin].
  - exists y'. split; [left; reflexivity | exact Hxy].
  - destruct (IH Hin) as [y [Hy HR]]. exists y. split; [right; exact Hy | exact HR].
Qed.

(** [np.array]: the two shapes it can give. *)
Lemma array_rectangular (rows : list (list pyfloat)) (c : Z) :
  rows <> [] ->
  Forall (fun r => len r = c) rows ->
  array rows = {| shape := [len rows; c]; data := map Float64 (List.concat rows) |}.
Proof.
  intros Hne Hall. destruct rows as [| r rs]; [contradiction | ].
  inversion Hall as [| r' rs' Hr Hrs]; subst.
  unfold array.
  replace (forallb (fun r' => len r' =? len r) rs) with true; [reflexivity | ].
  symmetry. apply forallb_forall. intros r' Hin.
  rewrite Forall_forall in Hrs. rewrite (Hrs r' Hin). apply Z.eqb_refl.
Qed.

Lemma array_ragged (rows : list (list pyfloat)) (r1 r2 : list pyfloat) :
  In r1 rows -> In r2 rows -> len r1 <> len r2 ->
  shape (array rows) = [len rows].
Proof.
  intros H1 H2 Hne. destruct rows as [| r rs]; [destruct H1 | ].
  unfold array.
  destruct (forallb (fun r' => len r' =? len r) rs) eqn:E; [ | reflexivity].
  exfalso. rewrite forallb_forall in E.
  assert (Hall : forall r', In r' (r :: rs) -> len r' = len r).
  { intros r' [<- | Hin]; [reflexivity | ]. apply Z.eqb_eq, E, Hin. }
  apply Hne. rewrite (Hall r1 H1), (Hall r2 H2). reflexivity.
Qed.

Lemma array_shape_cases (rows : list (list pyfloat)) :
  shape (array rows) = [len rows]
  \/ (rows <> [] /\ exists c, Forall (fun r => len r = c) rows
                              /\ shape (array rows) = [len rows; c]).
Proof.
  destruct rows as [| r rs]; [left; reflexivity | ].
  unfold array.
  destruct (forallb (fun r' => len r' =? len r) rs) eqn:E; [ | left; reflexivity].
  right. split; [discriminate | ].
  exists (len r). split; [ | reflexivity].
  constructor; [reflexivity | ].
  apply Forall_forall. intros r' Hin.
  rewrite forallb_forall in E. apply Z.eqb_eq, E, Hin.
Qed.

(** A one-axis shape has no entry 1: line 21 raises IndexError. *)
Lemma to_dataset_one_axis (particles : list (list pyfloat)) :
  shape (array particles) = [len particles] ->
  to_dataset particles = Fail IndexError 21.
Proof.
  intros H. unfold to_dataset, num_particles_of. rewrite H. reflexivity.
Qed.

(** *** Inputs without rows, and rows of differing widths *)

(** C9.  When the reader yields no non-blank row (an empty file, or blank
    lines only), line 21 raises IndexError: the array built from the empty
    list has the one-axis shape (0,).  This is before the reshape of line
    22, and [main] has done nothing but open the file: no plot exists. *)
Theorem C9_no_rows_IndexError (content : string) (rows : list (list string)) :
  reader (file_lines content) = (rows, None) ->
  nonblank_rows rows = [] ->
  load content = Fail IndexError 21
  /\ (forall argv fs,
        len argv = 2 -> fs (nth 1 argv "") = Some content ->
        main argv fs = ([open_ (nth 1 argv "") "rb"], Raised IndexError 21)).
Proof.
  intros Hreader Hblank.
  assert (Hload : load content = Fail IndexError 21).
  { unfold load, read_particles. rewrite Hreader. cbn [fst snd].
    rewrite for_rows_spec, Hblank. reflexivity. }
  split; [exact Hload | ].
  intros argv fs Hlen Hfs.
  rewrite (main_with_file argv fs content Hlen Hfs), Hload. reflexivity.
Qed.

Lemma C9_no_rows_IndexError_witness :
  (reader (file_lines blank_lines) = ([[]; []; []], None)
   /\ nonblank_rows [[]; []; []] = []
   /\ load blank_lines = Fail IndexError 21)
  /\ (reader (file_lines "") = ([], None)
      /\ nonblank_rows [] = []
      /\ main ["animation.py"; "empty.csv"] (one_file "empty.csv" "")
         = ([open_ "empty.csv" "rb"], Raised IndexError 21)).
Proof.
  split.
  - split; [vm_compute; reflexivity | ].
    split; [reflexivity | ].
    apply (C9_no_rows_IndexError blank_lines [[]; []; []]);
      [vm_compute; reflexivity | reflexivity].
  - split; [vm_compute; reflexivity | ].
    split; [reflexivity | ].
    apply (C9_no_rows_IndexError "" []); try reflexivity.
Defined.

(** C3, amended.  When two non-blank rows differ in their number of
    fields the program raises, it truncates nothing and gives no dataset;
    the exception is not raised by the reshape of line 22, which is never
    reached.  If the reader reaches the end of the file and every field
    converts, the exception is the IndexError of line 21, from
    [np.shape(particles)[1]] on the one-axis object array that
    [np.array] builds from rows of differing lengths; otherwise it is the
    earlier error of the conversion (line 19) or of the reader (line 16). *)
Theorem C3_differing_widths_raise (content : string) (r1 r2 : list string) :
  In r1 (nonblank_rows (fst (reader (file_lines content)))) ->
  In r2 (nonblank_rows (fst (reader (file_lines content)))) ->
  len r1 <> len r2 ->
  (exists e line,
      load content = Fail e line
      /\ (line = 16 \/ line = 19 \/ line = 21)%nat
      /\ (forall argv fs,
            len argv = 2 -> fs (nth 1 argv "") = Some content ->
            main argv fs = ([open_ (nth 1 argv "") "rb"], Raised e line)))
  /\ (snd (reader (file_lines content)) = None ->
      Forall (fun row => exists coords, convert row = Ok coords)
             (nonblank_rows (fst (reader (file_lines content)))) ->
      load content = Fail IndexError 21).
Proof.
  intros H1 H2 Hne.
  assert (Hragged : forall particles,
            for_rows (fst (reader (file_lines content))) [] = Ok particles ->
            to_dataset particles = Fail IndexError 21).
  { intros particles Hok. apply for_rows_Ok in Hok.
    destruct (Forall2_In_left _ _ _ _ Hok H1) as [p1 [Hp1 Hc1]].
    destruct (Forall2_In_left _ _ _ _ Hok H2) as [p2 [Hp2 Hc2]].
    apply to_dataset_one_axis, (array_ragged particles p1 p2 Hp1 Hp2).
    rewrite (convert_len _ _ Hc1), (convert_len _ _ Hc2).
    apply filter_In in H1, H2. destruct H1 as [_ N1], H2 as [_ N2].
    destruct r1, r2; try discriminate N1; try discriminate N2.
    cbn [skipn]. unfold len in *. cbn [List.length] in Hne. lia. }
  assert (Hfail : exists e line,
            load content = Fail e line /\ (line = 16 \/ line = 19 \/ line = 21)%nat).
  { unfold load, read_particles.
    destruct (for_rows (fst (reader (file_lines content))) []) as [particles | e] eqn:Hfor.
    - destruct (snd (reader (file_lines content))) as [e | ].
      + exists e, 16%nat. auto.
      + exists IndexError, 21%nat. rewrite (Hragged particles eq_refl). auto.
    - exists e, 19%nat. auto. }
  split.
  - destruct Hfail as [e [line [Hload Hline]]].
    exists e, line. split; [exact Hload | ]. split; [exact Hline | ].
    intros argv fs Hlen Hfs.
    rewrite (main_with_file argv fs content Hlen Hfs), Hload. reflexivity.
  - intros Hend Hconv.
    apply map_raise_total in Hconv. destruct Hconv as [particles Hps].
    assert (Hfor : for_rows (fst (reader (file_lines content))) [] = Ok particles).
    { apply for_rows_Ok, map_raise_Forall2, Hps. }
    unfold load, read_particles. rewrite Hfor, Hend.
    apply Hragged, Hfor.
Qed.

Lemma C3_differing_widths_raise_witness :
  In ["a"; "1"; "2"; "3"] (nonblank_rows (fst (reader (file_lines ragged))))
  /\ In ["b"; "1"; "2"; "3"; "4"; "5"; "6"]
        (nonblank_rows (fst (reader (file_lines ragged))))
  /\ len ["a"; "1"; "2"; "3"] <> len ["b"; "1"; "2"; "3"; "4"; "5"; "6"]
  /\ exists e line,
       load ragged = Fail e line /\ (line = 16 \/ line = 19 \/ line = 21)%nat.
Proof.
  assert (Ha : In ["a"; "1"; "2"; "3"] (nonblank_rows (fst (reader (file_lines ragged)))))
    by (vm_compute; left; reflexivity).
  assert (Hb : In ["b"; "1"; "2"; "3"; "4"; "5"; "6"]
                  (nonblank_rows (fst (reader (file_lines ragged)))))
    by (vm_compute; right; left; reflexivity).
  assert (Hw : len ["a"; "1"; "2"; "3"] <> len ["b"; "1"; "2"; "3"; "4"; "5"; "6"])
    by (vm_compute; discriminate).
  split; [exact Ha | ]. split; [exact Hb | ]. split; [exact Hw | ].
  destruct (C3_differing_widths_raise ragged _ _ Ha Hb Hw) as [[e [line [Hl [Hline _]]]] _].
  exists e, line. split; assumption.
Defined.

(** *** Lines of blanks and empty lines *)


Lemma newline_cases (c : ascii) : is_newline c = true -> c = LF \/ c = CR.
Proof.
  unfold is_newline. rewrite orb_true_iff, !Ascii.eqb_eq. tauto.
Qed.

Lemma append_cons_assoc (w : string) (c : ascii) (s : string) :
  ((w ++ String c "") ++ s)%string = (w ++ String c s)%string.
Proof.
  induction w as [| a w IH]; cbn; [reflexivity | rewrite IH; reflexivity].
Qed.

Lemma append_empty_r (w : string) : (w ++ "")%string = w.
Proof.
  induction w as [| a w IH]; cbn; [reflexivity | rewrite IH; reflexivity].
Qed.

Lemma process_chars_app (s1 s2 : string) :
  forall self,
    process_chars self (s1 ++ s2)%string =
      (self' <- process_chars self s1 ;; process_chars self' s2).
Proof.
  induction s1 as [| c s1 IH]; intros self; cbn [append process_chars bind].
  - reflexivity.
  - destruct (Ascii.eqb c NUL); [reflexivity | ].
    destruct (parse_process_char self c) as [self' | e]; cbn [bind]; [apply IH | reflexivity].
Qed.


(** Line ends after the end of a record are eaten. *)
Lemma eat_crnl (s : string) :
  forall fs w,
    all_chars is_newline s = true ->
    process_chars (mkReader fs EAT_CRNL w) s = Ok (mkReader fs EAT_CRNL w).
Proof.
  induction s as [| c s IH]; intros fs w Hs; cbn [process_chars]; [reflexivity | ].
  cbn [all_chars] in Hs. apply andb_true_iff in Hs. destruct Hs as [Hc Hs].
  replace (Ascii.eqb c NUL) with false
    by (destruct (newline_cases c Hc) as [-> | ->]; reflexivity).
  replace (parse_process_char (mkReader fs EAT_CRNL w) c)
    with (Ok (mkReader fs EAT_CRNL w))
    by (destruct (newline_cases c Hc) as [-> | ->]; reflexivity).
  cbn [bind]. apply IH, Hs.
Qed.

(** A line of line ends only holds no field. *)
Lemma process_empty_line (eol : string) :
  all_chars is_newline eol = true ->
  process_line parse_reset eol = Ok parse_reset.
Proof.
  intros Hs. unfold process_line.
  destruct eol as [| c eol]; [reflexivity | ].
  cbn [all_chars] in Hs. apply andb_true_iff in Hs. destruct Hs as [Hc Hs].
  cbn [process_chars].
  replace (Ascii.eqb c NUL) with false
    by (destruct (newline_cases c Hc) as [-> | ->]; reflexivity).
  replace (parse_process_char parse_reset c)
    with (Ok (mkReader [] EAT_CRNL ""))
    by (destruct (newline_cases c Hc) as [-> | ->]; reflexivity).
  cbn [bind]. rewrite (eat_crnl eol [] "" Hs). reflexivity.
Qed.

Lemma reader_empty_line (eol : string) (rest : list string) :
  all_chars is_newline eol = true ->
  reader (eol :: rest) = yield [] (reader rest).
Proof.
  intros Hs. unfold reader. cbn [reader_from].
  rewrite (process_empty_line eol Hs). reflexivity.
Qed.




(** A file of line ends only gives blank rows only: the case of C9. *)
Lemma file_lines_of_newlines (content : string) :
  all_chars is_newline content = true ->
  Forall (fun l => all_chars is_newline l = true) (file_lines content).
Proof.
  induction content as [| c r IH]; intros Hs; cbn [file_lines]; [constructor | ].
  cbn [all_chars] in Hs. apply andb_true_iff in Hs. destruct Hs as [Hc Hs].
  specialize (IH Hs).
  destruct (Ascii.eqb c LF).
  - constructor; [cbn; rewrite Hc; reflexivity | exact IH].
  - destruct (file_lines r) as [| l ls].
    + constructor; [cbn; rewrite Hc; reflexivity | constructor].
    + inversion IH as [| l' ls' Hl Hls]; subst.
      constructor; [cbn [all_chars]; rewrite Hc, Hl; reflexivity | exact Hls].
Qed.

Lemma reader_of_empty_lines (lines : list string) :
  Forall (fun l => all_chars is_newline l = true) lines ->
  snd (reader lines) = None /\ nonblank_rows (fst (reader lines)) = [].
Proof.
  induction 1 as [| l ls Hl _ [IH1 IH2]]; [split; reflexivity | ].
  rewrite (reader_empty_line l ls Hl). cbn [yield fst snd].
  split; [exact IH1 | exact IH2].
Qed.

Lemma newline_only_file_IndexError (content : string) :
  all_chars is_newline content = true ->
  load content = Fail IndexError 21.
Proof.
  intros Hs.
  destruct (reader_of_empty_lines _ (file_lines_of_newlines content Hs)) as [Hend Hrows].
  unfold load, read_particles.
  rewrite for_rows_spec, Hrows, Hend. reflexivity.
Qed.

(** *** The reshape *)

Lemma fix_unknown_dimension_3 (n s : Z) :
  0 <= n ->
  fix_unknown_dimension [-1; n; 3] s =
    if (n * 3 =? 0) || negb (s mod (n * 3) =? 0)
    then Raise ValueError
    else Ok [s / (n * 3); n; 3].
Proof.
  intros Hn. unfold fix_unknown_dimension.
  cbn [filter]. change (0 <=? -1) with false. change (0 <=? 3) with true.
  destruct (Z.leb_spec 0 n) as [_ | Hlt]; [ | lia].
  cbn [List.length Nat.sub prod fold_right map].
  replace (n * (3 * 1)) with (n * 3) by lia.
  change (0 <=? -1) with false. change (0 <=? 3) with true.
  destruct (Z.leb_spec 0 n) as [_ | Hlt]; [reflexivity | lia].
Qed.

(** What a dataset that loads is made of. *)
Lemma to_dataset_Done (particles : list (list pyfloat)) (a : ndarray) :
  to_dataset particles = Done a ->
  exists C,
    particles <> []
    /\ Forall (fun r => len r = C) particles
    /\ (C / 3) * 3 <> 0
    /\ (len particles * C) mod ((C / 3) * 3) = 0
    /\ shape a = [len particles * C / ((C / 3) * 3); C / 3; 3]
    /\ data a = map Float64 (List.concat particles).
Proof.
  intros Hdone.
  destruct (array_shape_cases particles) as [Hone | [Hne [C [Hall Hshape]]]].
  - rewrite (to_dataset_one_axis particles Hone) in Hdone. discriminate Hdone.
  - exists C. split; [exact Hne | ]. split; [exact Hall | ].
    assert (HC : 0 <= C).
    { destruct particles as [| r rs]; [contradiction | ].
      inversion Hall as [| r' rs' Hr _]; subst. apply len_nonneg. }
    assert (Hn : 0 <= C / 3) by (apply Z.div_pos; lia).
    unfold to_dataset, num_particles_of in Hdone.
    rewrite Hshape in Hdone. cbn [tuple_getitem nth_error bind] in Hdone.
    unfold reshape, size in Hdone. rewrite Hshape in Hdone.
    rewrite (fix_unknown_dimension_3 _ _ Hn) in Hdone.
    cbn [prod fold_right] in Hdone.
    replace (len particles * (C * 1)) with (len particles * C) in Hdone by lia.
    destruct (Z.eqb_spec (C / 3 * 3) 0) as [E0 | N0]; [discriminate Hdone | ].
    destruct (Z.eqb_spec ((len particles * C) mod (C / 3 * 3)) 0) as [E1 | N1];
      [ | discriminate Hdone].
    cbn [orb negb bind on_line] in Hdone. injection Hdone as <-.
    rewrite (array_rectangular particles C Hne Hall). cbn [shape data].
    repeat split; assumption.
Qed.

Lemma to_dataset_rectangular (particles : list (list pyfloat)) (C : Z) :
  particles <> [] ->
  Forall (fun r => len r = C) particles ->
  1 <= C -> C mod 3 = 0 ->
  to_dataset particles =
    Done {| shape := [len particles; C / 3; 3];
            data := map Float64 (List.concat particles) |}.
Proof.
  intros Hne Hall HC H3.
  assert (Hn : 0 <= C / 3) by (apply Z.div_pos; lia).
  assert (E : C / 3 * 3 = C) by (pose proof (Z.div_mod C 3); lia).
  unfold to_dataset, num_particles_of.
  rewrite (array_rectangular particles C Hne Hall).
  cbn [shape tuple_getitem nth_error bind].
  unfold reshape, size. cbn [shape data prod fold_right].
  rewrite (fix_unknown_dimension_3 _ _ Hn), E.
  replace (len particles * (C * 1)) with (len particles * C) by lia.
  rewrite Z.mod_mul by lia. rewrite Z.div_mul by lia.
  destruct (Z.eqb_spec C 0) as [E0 | _]; [lia | ].
  reflexivity.
Qed.

(** *** Blank rows *)

(** C6, amended.  Blank rows are skipped: the loop gives what it gives on
    the non-blank rows alone, so a blank row adds nothing to the table,
    which has one row for each non-blank row.  When the load succeeds and
    the number C of coordinate columns is divisible by 3, the dataset has
    as many time steps as the input has non-blank rows. *)
Theorem C6_blank_rows_skipped (content : string) :
  let data_reader := reader (file_lines content) in
  let kept := nonblank_rows (fst data_reader) in
  read_particles data_reader = read_particles (kept, snd data_reader)
  /\ (forall particles,
        read_particles data_reader = Done particles -> len particles = len kept)
  /\ (forall a C,
        load content = Done a ->
        Forall (fun row => len (skipn 1 row) = C) kept ->
        C mod 3 = 0 ->
        time_steps a = Ok (len kept)).
Proof.
  intros data_reader kept.
  assert (Hlen : forall particles,
            read_particles data_reader = Done particles ->
            Forall2 (fun row coords => convert row = Ok coords) kept particles).
  { intros particles Hread. unfold read_particles in Hread.
    destruct (for_rows (fst data_reader) []) as [ps | e] eqn:Hfor; [ | discriminate Hread].
    destruct (snd data_reader); [discriminate Hread | ].
    injection Hread as <-. apply for_rows_Ok, Hfor. }
  split.
  { unfold read_particles. cbn [fst snd]. fold kept.
    rewrite (for_rows_skips_blank (fst data_reader)). reflexivity. }
  split.
  { intros particles Hread. symmetry. eapply Forall2_len, Hlen, Hread. }
  intros a C Hload Hwidth H3.
  unfold load in Hload. fold data_reader in Hload.
  destruct (read_particles data_reader) as [particles | e line] eqn:Hread;
    [ | discriminate Hload].
  specialize (Hlen particles eq_refl).
  destruct (to_dataset_Done particles a Hload) as [C' [Hne [Hall [Hn [_ [Hshape _]]]]]].
  assert (HC : C' = C).
  { destruct Hlen as [| row coords rows ps Hconv _]; [contradiction | ].
    inversion Hall as [| r rs Hr _]; subst.
    inversion Hwidth as [| r' rs' Hr' _]; subst.
    apply convert_len, Hconv. }
  subst C'.
  assert (E : C / 3 * 3 = C) by (pose proof (Z.div_mod C 3); lia).
  unfold time_steps. rewrite Hshape, E. cbn [tuple_getitem nth_error].
  rewrite E in Hn. rewrite Z.div_mul by exact Hn.
  rewrite (Forall2_len _ _ _ Hlen). reflexivity.
Qed.

Lemma C6_blank_rows_skipped_witness :
  exists a,
    load two_steps_spaced = Done a
    /\ Forall (fun row => len (skipn 1 row) = 3)
              (nonblank_rows (fst (reader (file_lines two_steps_spaced))))
    /\ 3 mod 3 = 0
    /\ fst (reader (file_lines two_steps_spaced))
       = [["a"; "0"; "0"; "0"]; []; ["b"; "1"; "1"; "1"]; []]
    /\ time_steps a = Ok 2.
Proof.
  eexists.
  assert (Hload : load two_steps_spaced
                  = Done {| shape := [2; 1; 3];
                            data := map float64 [0; 0; 0; 1; 1; 1]%Q |})
    by (vm_compute; reflexivity).
  assert (Hwidth : Forall (fun row => len (skipn 1 row) = 3)
                     (nonblank_rows (fst (reader (file_lines two_steps_spaced)))))
    by (vm_compute; repeat constructor).
  split; [exact Hload | ].
  split; [exact Hwidth | ].
  split; [reflexivity | ].
  split; [vm_compute; reflexivity | ].
  destruct (C6_blank_rows_skipped two_steps_spaced) as [_ [_ Hsteps]].
  rewrite (Hsteps _ 3 Hload Hwidth eq_refl).
  vm_compute. reflexivity.
Defined.

(** *** Where each coordinate goes *)

Lemma nth_error_concat_rectangular {A} (rows : list (list A)) (c : nat) :
  Forall (fun r => List.length r = c) rows ->
  forall (t j : nat) (r : list A),
    nth_error rows t = Some r -> (j < c)%nat ->
    nth_error (List.concat rows) (t * c + j) = nth_error r j.
Proof.
  induction 1 as [| r0 rows Hr0 _ IH]; intros t j r Hnth Hj.
  - destruct t; discriminate Hnth.
  - cbn [List.concat]. destruct t as [| t]; cbn [nth_error] in Hnth.
    + injection Hnth as <-. cbn [Nat.mul Nat.add].
      apply nth_error_app1. lia.
    + rewrite nth_error_app2 by (cbn [Nat.mul]; lia).
      replace (S t * c + j - List.length r0)%nat with (t * c + j)%nat
        by (cbn [Nat.mul]; lia).
      apply IH; assumption.
Qed.

Lemma Forall2_nth_error_left {A B} (R : A -> B -> Prop) (xs : list A) (ys : list B) :
  Forall2 R xs ys ->
  forall i x, nth_error xs i = Some x -> exists y, nth_error ys i = Some y /\ R x y.
Proof.
  induction 1 as [| x' y' xs ys Hxy _ IH]; intros i x Hnth.
  - destruct i; discriminate Hnth.
  - destruct i as [| i]; cbn [nth_error] in *.
    + injection Hnth as <-. exists y'. split; [reflexivity | exact Hxy].
    + apply IH, Hnth.
Qed.

Lemma nth_error_in_range {A} (l : list A) (i : nat) :
  (i < List.length l)%nat -> exists x, nth_error l i = Some x.
Proof.
  intros Hi. destruct (nth_error l i) as [x | ] eqn:E; [exists x; reflexivity | ].
  apply nth_error_None in E. lia.
Qed.

(** C1, amended.  Let the reader give R >= 1 non-blank rows, each with a
    label and the same number C >= 1 of coordinate fields, C divisible by
    3 and every coordinate field accepted by [float].  Then the load
    succeeds with a dataset of shape (R, C/3, 3), and the element at
    [time_step][particle][axis] is the float of field
    1 + 3 * particle + axis of non-blank row number time_step. *)
Theorem C1_loader_shape (content : string) (rows : list (list string)) (R C : Z) :
  reader (file_lines content) = (rows, None) ->
  len (nonblank_rows rows) = R ->
  1 <= R ->
  Forall (fun row => len (skipn 1 row) = C) (nonblank_rows rows) ->
  Forall (fun row => Forall (fun s => exists x, float s = Ok x) (skipn 1 row))
         (nonblank_rows rows) ->
  1 <= C ->
  C mod 3 = 0 ->
  exists a,
    load content = Done a
    /\ shape a = [R; C / 3; 3]
    /\ (forall t p k,
          0 <= t < R -> 0 <= p < C / 3 -> 0 <= k < 3 ->
          exists row s x,
            nth_error (nonblank_rows rows) (Z.to_nat t) = Some row
            /\ nth_error row (Z.to_nat (1 + 3 * p + k)) = Some s
            /\ float s = Ok x
            /\ getitem3 a t p k = Ok (Float64 x)).
Proof.
  intros Hreader HR HR1 Hwidth Hfloat HC H3.
  (* the loop *)
  assert (Hconv : Forall (fun row => exists coords, convert row = Ok coords)
                    (nonblank_rows rows)).
  { eapply Forall_impl; [ | exact Hfloat]. intros row Hrow. apply map_raise_total, Hrow. }
  apply map_raise_total in Hconv. destruct Hconv as [particles Hps].
  apply map_raise_Forall2 in Hps.
  assert (Hfor : for_rows rows [] = Ok particles) by (apply for_rows_Ok, Hps).
  assert (Hlen : len particles = R) by (rewrite <- HR; symmetry; eapply Forall2_len, Hps).
  assert (Hne : particles <> []).
  { intros ->. unfold len in Hlen. cbn in Hlen. lia. }
  assert (Hall : Forall (fun r => len r = C) particles).
  { clear - Hps Hwidth. induction Hps as [| row coords rs ps Hc _ IH]; [constructor | ].
    inversion Hwidth as [| r' rs' Hr Hrs]; subst.
    constructor; [apply convert_len, Hc | apply IH, Hrs]. }
  (* the array and its reshape *)
  exists {| shape := [len particles; C / 3; 3];
            data := map Float64 (List.concat particles) |}.
  split.
  { unfold load, read_particles. rewrite Hreader. cbn [fst snd]. rewrite Hfor.
    apply to_dataset_rectangular; assumption. }
  split; [cbn [shape]; rewrite Hlen; reflexivity | ].
  (* the elements *)
  intros t p k Ht Hp Hk.
  assert (E : C / 3 * 3 = C) by (pose proof (Z.div_mod C 3); lia).
  destruct (nth_error_in_range (nonblank_rows rows) (Z.to_nat t)) as [row Hrow].
  { unfold len in HR. lia. }
  destruct (Forall2_nth_error_left _ _ _ Hps _ _ Hrow) as [coords [Hcoords Hcr]].
  assert (Hcl : len coords = C).
  { rewrite Forall_forall in Hall. apply Hall. eapply nth_error_In, Hcoords. }
  unfold convert in Hcr. apply map_raise_Forall2 in Hcr.
  destruct (nth_error_in_range (skipn 1 row) (Z.to_nat (3 * p + k))) as [s Hs].
  { rewrite (Forall2_length Hcr). unfold len in Hcl. lia. }
  destruct (Forall2_nth_error_left _ _ _ Hcr _ _ Hs) as [x [Hx Hsx]].
  exists row, s, x.
  split; [exact Hrow | ].
  split.
  { replace (Z.to_nat (1 + 3 * p + k)) with (S (Z.to_nat (3 * p + k))) by lia.
    destruct row as [| label cs]; [destruct (Z.to_nat (3 * p + k)); discriminate Hs | ].
    exact Hs. }
  split; [exact Hsx | ].
  unfold getitem3, check_index. cbn [shape].
  rewrite Hlen.
  replace ((0 <=? t) && (t <? R)) with true by (symmetry; apply andb_true_iff; lia).
  replace ((0 <=? p) && (p <? C / 3)) with true by (symmetry; apply andb_true_iff; lia).
  replace ((0 <=? k) && (k <? 3)) with true by (symmetry; apply andb_true_iff; lia).
  cbn [bind]. unfold flat_get. cbn [data].
  replace (Z.to_nat ((t * (C / 3) + p) * 3 + k))
    with (Z.to_nat t * Z.to_nat C + Z.to_nat (3 * p + k))%nat by nia.
  rewrite nth_error_map.
  rewrite (nth_error_concat_rectangular particles (Z.to_nat C)) with (r := coords).
  - rewrite Hx. reflexivity.
  - eapply Forall_impl; [ | exact Hall]. intros r Hr. unfold len in Hr. cbn beta in Hr. lia.
  - exact Hcoords.
  - lia.
Qed.

Lemma C1_loader_shape_witness :
  reader (file_lines two_rows)
    = ([ ["p1"; "0.1"; "0.2"; "0.3"; "0.4"; "0.5"; "0.6"];
         ["p2"; "0.2"; "0.3"; "0.4"; "0.5"; "0.6"; "0.7"] ], None)
  /\ 1 <= 2 /\ 1 <= 6 /\ 6 mod 3 = 0
  /\ exists a, load two_rows = Done a /\ shape a = [2; 6 / 3; 3].
Proof.
  assert (Hreader : reader (file_lines two_rows)
            = ([ ["p1"; "0.1"; "0.2"; "0.3"; "0.4"; "0.5"; "0.6"];
                 ["p2"; "0.2"; "0.3"; "0.4"; "0.5"; "0.6"; "0.7"] ], None))
    by (vm_compute; reflexivity).
  split; [exact Hreader | ].
  split; [lia | ]. split; [lia | ]. split; [reflexivity | ].
  destruct (C1_loader_shape two_rows _ 2 6 Hreader) as [a [Hload [Hshape _]]].
  - reflexivity.
  - lia.
  - repeat constructor.
  - repeat constructor; eexists; vm_compute; reflexivity.
  - lia.
  - reflexivity.
  - exists a. split; assumption.
Defined.

(** *** The animation *)

Lemma length_concat_rectangular {A} (rows : list (list A)) (c : nat) :
  Forall (fun r => List.length r = c) rows ->
  List.length (List.concat rows) = (List.length rows * c)%nat.
Proof.
  induction 1 as [| r rows Hr _ IH]; [reflexivity | ].
  cbn [List.concat List.length Nat.mul]. rewrite length_app, IH, Hr. reflexivity.
Qed.

Lemma In_range (n i : Z) : In i (range n) <-> 0 <= i < n.
Proof.
  unfold range. rewrite in_map_iff. split.
  - intros [j [<- Hj]]. apply in_seq in Hj. lia.
  - intros Hi. exists (Z.to_nat i). split; [lia | ]. apply in_seq. lia.
Qed.

Lemma len_range (n : Z) : 0 <= n -> len (range n) = n.
Proof.
  intros Hn. unfold len, range. rewrite length_map, length_seq. lia.
Qed.

(** A dataset that loads has at least one time step, and as many elements
    as its shape says. *)
Lemma load_Done_shape (content : string) (a : ndarray) :
  load content = Done a ->
  exists T n,
    shape a = [T; n; 3] /\ 1 <= T /\ 1 <= n
    /\ len (data a) = T * n * 3.
Proof.
  intros Hload. unfold load in Hload.
  destruct (read_particles (reader (file_lines content))) as [particles | e line];
    [ | discriminate Hload].
  destruct (to_dataset_Done particles a Hload)
    as [C [Hne [Hall [Hn [Hmod [Hshape Hdata]]]]]].
  assert (HC : 0 <= C).
  { destruct particles as [| r rs]; [contradiction | ].
    inversion Hall as [| r' rs' Hr _]; subst. apply len_nonneg. }
  assert (HR : 1 <= len particles).
  { destruct particles; [contradiction | ]. unfold len. cbn [List.length]. lia. }
  pose proof (Z.div_mod C 3 ltac:(lia)) as HdC.
  pose proof (Z.mod_pos_bound C 3 ltac:(lia)) as HmC.
  assert (Hn1 : 1 <= C / 3) by lia.
  pose proof (Z.div_mod (len particles * C) (C / 3 * 3) Hn) as Hd.
  rewrite Hmod in Hd.
  exists (len particles * C / (C / 3 * 3)), (C / 3).
  split; [exact Hshape | ].
  split; [ | split; [exact Hn1 | ]].
  - assert (0 < len particles * C / (C / 3 * 3)); [ | lia].
    apply Z.div_str_pos. nia.
  - rewrite Hdata. unfold len. rewrite length_map.
    rewrite (length_concat_rectangular particles (Z.to_nat C)).
    + unfold len in Hd. nia.
    + eapply Forall_impl; [ | exact Hall]. intros r Hr. unfold len in Hr. cbn beta in Hr. lia.
Qed.

Lemma coordinates_in_range (a : ndarray) (T n : Z) :
  shape a = [T; n; 3] -> 0 <= n -> len (data a) = T * n * 3 ->
  forall i, 0 <= i < T -> exists offsets, coordinates a i = Ok offsets.
Proof.
  intros Hshape Hn Hdata i Hi.
  assert (Hget : forall k, 0 <= k < 3 -> exists xs, getitem_i_all_k a i k = Ok xs).
  { intros k Hk. unfold getitem_i_all_k, check_index. rewrite Hshape.
    replace ((0 <=? i) && (i <? T)) with true by (symmetry; apply andb_true_iff; lia).
    replace ((0 <=? k) && (k <? 3)) with true by (symmetry; apply andb_true_iff; lia).
    cbn [bind]. apply map_raise_total, Forall_forall.
    intros j Hj. apply In_range in Hj. unfold flat_get.
    destruct (nth_error_in_range (data a) (Z.to_nat ((i * n + j) * 3 + k))) as [x Hx].
    - unfold len in Hdata. nia.
    - rewrite Hx. eexists; reflexivity. }
  unfold coordinates.
  destruct (Hget 0 ltac:(lia)) as [xs ->].
  destruct (Hget 1 ltac:(lia)) as [ys ->].
  destruct (Hget 2 ltac:(lia)) as [zs ->].
  eexists; reflexivity.
Qed.

(** The frames of every dataset that loads.  With T time steps, [main]
    draws step 0, registers [animate] for T - 1 frames and returns; the
    frame sequence is 0, ..., T - 2, so a pass makes T - 1 calls, the call
    for frame i shows time step i, and step T - 1 is in no call. *)
Lemma frames_of_loaded_dataset (content : string) (a : ndarray) :
  load content = Done a ->
  exists T first animation,
    time_steps a = Ok T /\ 1 <= T
    /\ show a =
         ([ plt_figure; p3_Axes3D;
            set_xlim3d (F 0) (F 1); set_xlabel "X";
            set_ylim3d (F 0) (F 1); set_ylabel "Y";
            set_zlim3d (F 0) (F 1); set_zlabel "Z";
            ax_scatter first; anim_FuncAnimation animation;
            plt_draw; plt_show ], Returned)
    /\ coordinates a 0 = Ok (_offsets3d first)
    /\ func animation = animate a
    /\ interval animation = 10
    /\ frames animation = T - 1
    /\ new_frame_seq animation = range (T - 1)
    /\ len (new_frame_seq animation) = T - 1
    /\ (forall i, In i (new_frame_seq animation) <-> 0 <= i < T - 1)
    /\ ~ In (T - 1) (new_frame_seq animation)
    /\ (forall i points,
          In i (new_frame_seq animation) ->
          exists offsets,
            coordinates a i = Ok offsets
            /\ func animation i points = Ok {| _offsets3d := offsets |}).
Proof.
  intros Hload.
  destruct (load_Done_shape content a Hload) as [T [n [Hshape [HT [Hn Hdata]]]]].
  destruct (coordinates_in_range a T n Hshape ltac:(lia) Hdata 0 ltac:(lia))
    as [offsets0 H0].
  exists T, {| _offsets3d := offsets0 |},
    {| func := animate a; interval := 10; frames := T - 1 |}.
  split; [unfold time_steps; rewrite Hshape; reflexivity | ].
  split; [exact HT | ].
  split.
  { unfold show, num_frames_of. rewrite H0, Hshape. reflexivity. }
  split; [exact H0 | ].
  split; [reflexivity | ]. split; [reflexivity | ]. split; [reflexivity | ].
  split; [reflexivity | ].
  split; [apply len_range; lia | ].
  split; [intros i; apply In_range | ].
  split; [intros Hin; apply In_range in Hin; cbn [frames] in Hin; lia | ].
  intros i points Hin. apply In_range in Hin. cbn [frames] in Hin.
  destruct (coordinates_in_range a T n Hshape ltac:(lia) Hdata i ltac:(lia))
    as [offsets Hi].
  exists offsets. split; [exact Hi | ].
  cbn [func]. unfold animate. rewrite Hi. reflexivity.
Qed.

(** A file that loads is shown: [main] returns normally. *)
Lemma main_returns_when_loaded (argv : list string) (fs : filesystem)
    (content : string) (a : ndarray) :
  len argv = 2 ->
  fs (nth 1 argv "") = Some content ->
  load content = Done a ->
  snd (main argv fs) = Returned.
Proof.
  intros Hlen Hfs Hload.
  rewrite (main_with_file argv fs content Hlen Hfs), Hload.
  destruct (frames_of_loaded_dataset content a Hload) as [T [first [an [_ [_ [Hshow _]]]]]].
  rewrite Hshow. reflexivity.
Qed.


(* ================================================================== *)
(** ** Further properties of the script *)
(* ================================================================== *)

(** *** Which exceptions, and where *)

Lemma float_raises_ValueError (s : string) (e : exception) :
  float s = Raise e -> e = ValueError.
Proof.
  unfold float.
  destruct (_PyOS_ascii_strtod (lstrip s)) as [[x end_] | ].
  - destruct (lstrip end_); [discriminate | ]. intros H. injection H as <-. reflexivity.
  - intros H. injection H as <-. reflexivity.
Qed.

Lemma map_raise_Raise {A B} (f : A -> result B) (xs : list A) (e : exception) :
  map_raise f xs = Raise e -> exists x, In x xs /\ f x = Raise e.
Proof.
  induction xs as [| x xs IH]; cbn [map_raise]; [discriminate | ].
  destruct (f x) as [y | e'] eqn:Hx; cbn [bind].
  - destruct (map_raise f xs) as [ys | e'] eqn:Hxs; cbn [bind]; [discriminate | ].
    intros H. injection H as ->.
    destruct (IH eq_refl) as [x' [Hin Hx']]. exists x'. split; [right; exact Hin | exact Hx'].
  - intros H. injection H as ->. exists x. split; [left; reflexivity | exact Hx].
Qed.

Lemma map_raise_In_Raise {A B} (f : A -> result B) (xs : list A) (x : A) (e : exception) :
  In x xs -> f x = Raise e -> exists e', map_raise f xs = Raise e'.
Proof.
  induction xs as [| x0 xs IH]; intros Hin Hx; [destruct Hin | ].
  cbn [map_raise]. destruct (f x0) as [y | e0] eqn:H0; cbn [bind].
  - destruct Hin as [-> | Hin]; [rewrite Hx in H0; discriminate H0 | ].
    destruct (IH Hin Hx) as [e' ->]. exists e'. reflexivity.
  - exists e0. reflexivity.
Qed.

Lemma convert_raises_ValueError (row : list string) (e : exception) :
  convert row = Raise e -> e = ValueError.
Proof.
  unfold convert. intros H. apply map_raise_Raise in H.
  destruct H as [s [_ Hs]]. eapply float_raises_ValueError, Hs.
Qed.

Lemma for_rows_raises_ValueError (rows : list (list string)) (e : exception) :
  for_rows rows [] = Raise e -> e = ValueError.
Proof.
  rewrite for_rows_spec.
  destruct (map_raise convert (nonblank_rows rows)) as [ps | e'] eqn:H; cbn [bind];
    [discriminate | ].
  intros E. injection E as ->. apply map_raise_Raise in H.
  destruct H as [row [_ Hrow]]. eapply convert_raises_ValueError, Hrow.
Qed.

Lemma parse_add_char_raises (self : ReaderObj) (c : ascii) (e : exception) :
  parse_add_char self c = Raise e -> e = csv_Error.
Proof.
  unfold parse_add_char. destruct (field_limit <=? field_len self); [ | discriminate].
  intros H. injection H as <-. reflexivity.
Qed.

Lemma parse_process_char_raises (self : ReaderObj) (c : ascii) (e : exception) :
  parse_process_char self c = Raise e -> e = csv_Error.
Proof.
  unfold parse_process_char, start_field.
  destruct (state self);
    repeat match goal with
           | |- context [if ?b then _ else _] => destruct b
           end;
    try discriminate;
    try (intros H; injection H as <-; reflexivity);
    try apply parse_add_char_raises;
    match goal with
    | |- context [parse_add_char ?s c] =>
        destruct (parse_add_char s c) as [self' | e'] eqn:Hadd; cbn [bind];
        [discriminate
        | intros H; injection H as <-; eapply parse_add_char_raises, Hadd]
    end.
Qed.

Lemma process_chars_raises (line : string) :
  forall self e, process_chars self line = Raise e -> e = csv_Error.
Proof.
  induction line as [| c line IH]; intros self e; cbn [process_chars]; [discriminate | ].
  destruct (Ascii.eqb c NUL).
  - intros H. injection H as <-. reflexivity.
  - destruct (parse_process_char self c) as [self' | e'] eqn:Hc; cbn [bind].
    + apply IH.
    + intros H. injection H as <-. eapply parse_process_char_raises, Hc.
Qed.

Lemma process_line_raises (self : ReaderObj) (line : string) (e : exception) :
  process_line self line = Raise e -> e = csv_Error.
Proof.
  unfold process_line.
  destruct (process_chars self line) as [self' | e'] eqn:Hl; cbn [bind].
  - apply parse_process_char_raises.
  - intros H. injection H as <-. eapply process_chars_raises, Hl.
Qed.

Lemma reader_raises_csv_Error (lines : list string) :
  forall self e, snd (reader_from self lines) = Some e -> e = csv_Error.
Proof.
  induction lines as [| l lines IH]; intros self e; cbn [reader_from].
  - destruct (negb (String.eqb (field self) "")
              || match state self with IN_QUOTED_FIELD => true | _ => false end);
      discriminate.
  - destruct (process_line self l) as [self' | e'] eqn:Hl.
    + destruct (state self'); cbn [yield snd]; apply IH.
    + cbn [snd]. intros H. injection H as <-. eapply process_line_raises, Hl.
Qed.

Lemma to_dataset_Fail (particles : list (list pyfloat)) (e : exception) (line : nat) :
  to_dataset particles = Fail e line ->
  (e = IndexError /\ line = 21%nat) \/ (e = ValueError /\ line = 22%nat).
Proof.
  unfold to_dataset, num_particles_of, tuple_getitem.
  destruct (nth_error (shape (array particles)) 1) as [width | ]; cbn [bind].
  - unfold reshape, fix_unknown_dimension.
    match goal with
    | |- context [match ?u with O => _ | S _ => _ end] => destruct u as [| [| ?]]
    end;
      repeat match goal with
             | |- context [if ?b then _ else _] => destruct b
             end;
      cbn [bind on_line]; intros H; try discriminate H;
      injection H as <- <-; right; split; reflexivity.
  - intros H. injection H as <- <-. left. split; reflexivity.
Qed.

Lemma load_Fail (content : string) (e : exception) (line : nat) :
  load content = Fail e line ->
  (e = csv_Error /\ line = 16%nat) \/ (e = ValueError /\ line = 19%nat)
  \/ (e = IndexError /\ line = 21%nat) \/ (e = ValueError /\ line = 22%nat).
Proof.
  unfold load, read_particles.
  destruct (for_rows (fst (reader (file_lines content))) []) as [ps | e'] eqn:Hfor.
  - destruct (snd (reader (file_lines content))) as [e' | ] eqn:Hend.
    + intros H. injection H as <- <-. left.
      split; [eapply reader_raises_csv_Error, Hend | reflexivity].
    + intros H. apply to_dataset_Fail in H. tauto.
  - intros H. injection H as <- <-. right. left.
    split; [eapply for_rows_raises_ValueError, Hfor | reflexivity].
Qed.

(** *** What the first field is not *)

Lemma convert_spec (row : list string) (coords : list pyfloat) :
  nonblank row = true ->
  (convert row = Ok coords <->
   exists label fields,
     row = label :: fields /\ Forall2 (fun s x => float s = Ok x) fields coords).
Proof.
  intros Hrow. destruct row as [| label fields]; [discriminate Hrow | ].
  unfold convert. cbn [skipn]. rewrite map_raise_Forall2. split.
  - intros H. exists label, fields. split; [reflexivity | exact H].
  - intros [label' [fields' [E H]]]. injection E as <- <-. exact H.
Qed.

Lemma Forall2_iff_on {A B} (P : A -> Prop) (R R' : A -> B -> Prop) (xs : list A) :
  Forall P xs ->
  (forall x y, P x -> (R x y <-> R' x y)) ->
  forall ys, Forall2 R xs ys <-> Forall2 R' xs ys.
Proof.
  intros HP Hiff. induction HP as [| x xs Hx _ IH]; intros ys.
  - split; intros H; inversion H; constructor.
  - split; intros H; inversion H as [| x' y xs' ys' Hxy Hrest]; subst;
      (constructor; [apply (Hiff x y Hx), Hxy | apply IH, Hrest]).
Qed.

Lemma nonblank_rows_nonblank (rows : list (list string)) :
  Forall (fun row => nonblank row = true) (nonblank_rows rows).
Proof.
  apply Forall_forall. intros row Hin. apply filter_In in Hin. apply Hin.
Qed.

(** C7.  The first field of a row never reaches the coordinate data, and
    the fields after it are all of it.  The loop succeeds exactly when the
    reader ends without error and, in every non-blank row, each field after
    the first is accepted by [float]; the table then holds, row for row and
    field for field, the floats of those fields and nothing of the first
    field.  When the loop fails, the exception comes from [float] on a field
    after the first (line 19) or from the reader (line 16), never from the
    first field, whatever it holds.  So replacing the first field of every
    row by anything else ([f] is arbitrary, numeric or not) changes
    neither the table nor the exception. *)
Theorem C7_first_field_excluded (f : string -> string) (data_reader : rows_t) :
  (forall particles,
     read_particles data_reader = Done particles <->
     snd data_reader = None
     /\ Forall2 (fun row coords =>
                   exists label fields,
                     row = label :: fields
                     /\ Forall2 (fun s x => float s = Ok x) fields coords)
                (nonblank_rows (fst data_reader)) particles)
  /\ (forall e line,
        read_particles data_reader = Fail e line ->
        (line = 19%nat
         /\ exists row s,
              In row (fst data_reader) /\ In s (skipn 1 row) /\ float s = Raise e)
        \/ (line = 16%nat /\ snd data_reader = Some e))
  /\ read_particles (map (relabel f) (fst data_reader), snd data_reader)
     = read_particles data_reader.
Proof.
  split; [ | split].
  - intros particles.
    rewrite <- (Forall2_iff_on _ _ _ _ (nonblank_rows_nonblank (fst data_reader))
                  (fun row coords Hrow => convert_spec row coords Hrow)).
    rewrite <- for_rows_Ok. unfold read_particles.
    destruct (for_rows (fst data_reader) []) as [ps | e].
    + destruct (snd data_reader) as [e | ]; split.
      * discriminate.
      * intros [H _]. discriminate H.
      * intros H. injection H as ->. split; reflexivity.
      * intros [_ H]. injection H as ->. reflexivity.
    + split; [discriminate | intros [_ H]; discriminate H].
  - intros e line. unfold read_particles.
    destruct (for_rows (fst data_reader) []) as [ps | e'] eqn:Hfor.
    + destruct (snd data_reader) as [e' | ]; [ | discriminate].
      intros H. injection H as <- <-. right. split; reflexivity.
    + intros H. injection H as <- <-. left. split; [reflexivity | ].
      rewrite for_rows_spec in Hfor.
      destruct (map_raise convert (nonblank_rows (fst data_reader))) as [css | e''] eqn:Hconv;
        cbn [bind] in Hfor; [discriminate Hfor | ].
      injection Hfor as ->.
      destruct (map_raise_Raise _ _ _ Hconv) as [row [Hrow Hraise]].
      destruct (map_raise_Raise _ _ _ Hraise) as [s [Hs Hfloat]].
      exists row, s. apply filter_In in Hrow.
      split; [apply Hrow | ]. split; [exact Hs | exact Hfloat].
  - unfold read_particles. cbn [fst snd]. rewrite for_rows_relabel. reflexivity.
Qed.

Lemma C7_first_field_excluded_witness :
  read_particles ([["1.5"; "1"; "2"]; []; ["label"; "3"; "4"]], None)
  = Done [[F 1; F 2]; [F 3; F 4]]
  /\ read_particles (map (relabel (fun _ => "x"))
                        [["1.5"; "1"; "2"]; []; ["label"; "3"; "4"]], None)
     = read_particles ([["1.5"; "1"; "2"]; []; ["label"; "3"; "4"]], None).
Proof.
  destruct (C7_first_field_excluded (fun _ => "x")
              ([["1.5"; "1"; "2"]; []; ["label"; "3"; "4"]], None))
    as [Hiff [_ Hrel]].
  split; [ | exact Hrel].
  apply Hiff. split; [reflexivity | ].
  cbn [fst nonblank_rows filter nonblank blank negb].
  constructor.
  - exists "1.5", ["1"; "2"]. split; [reflexivity | ].
    constructor; [reflexivity | ]. constructor; [reflexivity | constructor].
  - constructor; [ | constructor].
    exists "label", ["3"; "4"]. split; [reflexivity | ].
    constructor; [reflexivity | ]. constructor; [reflexivity | constructor].
Defined.

(** X1.  Everything [main] can do.  Without exactly one argument it prints
    the usage message and returns.  Otherwise it opens the file named by
    the argument, read-only and binary, and no other; then either an
    exception leaves it before anything is plotted, and that exception is
    one of five (IOError from line 14, the reader's error from line 16,
    ValueError from line 19, IndexError from line 21, ValueError from line
    22), or the file loads, the plot is set up, time step 0 is drawn, the
    animation is registered for [animate] with interval 10 and one frame
    less than there are time steps, and [main] returns. *)
Theorem X1_everything_main_does (argv : list string) (fs : filesystem) :
  (len argv <> 2 /\ main argv fs = ([print usage], Returned))
  \/ (len argv = 2
      /\ exists e line,
           main argv fs = ([open_ (nth 1 argv "") "rb"], Raised e line)
           /\ ((e = IOError /\ line = 14%nat /\ fs (nth 1 argv "") = None)
               \/ (e = csv_Error /\ line = 16%nat)
               \/ (e = ValueError /\ line = 19%nat)
               \/ (e = IndexError /\ line = 21%nat)
               \/ (e = ValueError /\ line = 22%nat)))
  \/ (len argv = 2
      /\ exists content particles T offsets,
           fs (nth 1 argv "") = Some content
           /\ load content = Done particles
           /\ time_steps particles = Ok T
           /\ coordinates particles 0 = Ok offsets
           /\ main argv fs =
                (open_ (nth 1 argv "") "rb"
                 :: axes_setup
                 ++ [ ax_scatter {| _offsets3d := offsets |};
                      anim_FuncAnimation
                        {| func := animate particles; interval := 10; frames := T - 1 |};
                      plt_draw; plt_show ],
                 Returned)).
Proof.
  destruct (Z.eq_dec (len argv) 2) as [Hlen | Hlen].
  - right.
    destruct (fs (nth 1 argv "")) as [content | ] eqn:Hfs.
    + rewrite (main_with_file argv fs content Hlen Hfs).
      destruct (load content) as [particles | e line] eqn:Hload.
      * right. split; [exact Hlen | ].
        destruct (frames_of_loaded_dataset content particles Hload)
          as [T [first [an [HT [_ [Hshow [H0 [Hf [Hi [Hn _]]]]]]]]]].
        exists content, particles, T, (_offsets3d first).
        split; [reflexivity | ]. split; [exact Hload | ].
        split; [exact HT | ]. split; [exact H0 | ].
        rewrite Hshow. cbn [fst snd].
        destruct first as [offs], an as [f i n]. cbn in Hf, Hi, Hn. subst.
        reflexivity.
      * left. split; [exact Hlen | ]. exists e, line. split; [reflexivity | ].
        right. apply load_Fail in Hload. tauto.
    + left. split; [exact Hlen | ]. exists IOError, 14%nat.
      split.
      * unfold main. rewrite Hlen, Z.eqb_refl. cbn [negb]. rewrite Hfs. reflexivity.
      * left. auto.
  - left. split; [exact Hlen | ].
    unfold main. destruct (Z.eqb_spec (len argv) 2) as [E | _]; [contradiction | reflexivity].
Qed.

(** X2.  A coordinate field that [float] rejects stops the load with the
    ValueError of line 19, whatever else is wrong with the file (rows of
    differing widths, a width that is no multiple of 3, an error of the
    reader further down): the conversion comes first.  Only the fields
    after the first count. *)
Theorem X2_malformed_field_ValueError (content : string) (row : list string) (s : string) :
  In row (fst (reader (file_lines content))) ->
  In s (skipn 1 row) ->
  float s = Raise ValueError ->
  load content = Fail ValueError 19
  /\ (forall argv fs,
        len argv = 2 -> fs (nth 1 argv "") = Some content ->
        main argv fs = ([open_ (nth 1 argv "") "rb"], Raised ValueError 19)).
Proof.
  intros Hrow Hs Hfloat.
  assert (Hload : load content = Fail ValueError 19).
  { assert (Hkept : In row (nonblank_rows (fst (reader (file_lines content))))).
    { apply filter_In. split; [exact Hrow | ]. destruct row; [destruct Hs | reflexivity]. }
    destruct (map_raise_In_Raise float (skipn 1 row) s ValueError Hs Hfloat) as [e He].
    destruct (map_raise_In_Raise convert _ row e Hkept He) as [e' He'].
    unfold load, read_particles.
    destruct (for_rows (fst (reader (file_lines content))) []) as [ps | e''] eqn:Hfor.
    - rewrite for_rows_spec, He' in Hfor. discriminate Hfor.
    - rewrite (for_rows_raises_ValueError _ _ Hfor). reflexivity. }
  split; [exact Hload | ].
  intros argv fs Hlen Hfs.
  rewrite (main_with_file argv fs content Hlen Hfs), Hload. reflexivity.
Qed.

Lemma X2_malformed_field_ValueError_witness :
  In ["b"; "1"; "x"] (fst (reader (file_lines (unlines ["a,1,2,3"; "b,1,x"; "c"]))))
  /\ In "x" (skipn 1 ["b"; "1"; "x"])
  /\ float "x" = Raise ValueError
  /\ load (unlines ["a,1,2,3"; "b,1,x"; "c"]) = Fail ValueError 19.
Proof.
  assert (Hrow : In ["b"; "1"; "x"]
                   (fst (reader (file_lines (unlines ["a,1,2,3"; "b,1,x"; "c"])))))
    by (vm_compute; right; left; reflexivity).
  assert (Hs : In "x" (skipn 1 ["b"; "1"; "x"])) by (cbn; right; left; reflexivity).
  split; [exact Hrow | ]. split; [exact Hs | ]. split; [reflexivity | ].
  apply (X2_malformed_field_ValueError _ _ _ Hrow Hs eq_refl).
Defined.

(** *** Which files load, and what the dataset holds *)

Lemma to_dataset_general (particles : list (list pyfloat)) (C : Z) :
  particles <> [] ->
  Forall (fun r => len r = C) particles ->
  3 <= C ->
  (len particles * C) mod (C / 3 * 3) = 0 ->
  to_dataset particles =
    Done {| shape := [len particles * C / (C / 3 * 3); C / 3; 3];
            data := map Float64 (List.concat particles) |}.
Proof.
  intros Hne Hall HC Hmod.
  assert (Hn : 1 <= C / 3) by (apply Z.div_le_lower_bound; lia).
  unfold to_dataset, num_particles_of.
  rewrite (array_rectangular particles C Hne Hall).
  cbn [shape tuple_getitem nth_error bind].
  unfold reshape, size. cbn [shape data prod fold_right].
  rewrite (fix_unknown_dimension_3 (C / 3) _ ltac:(lia)).
  replace (len particles * (C * 1)) with (len particles * C) by lia.
  rewrite Hmod.
  destruct (Z.eqb_spec (C / 3 * 3) 0) as [E0 | _]; [lia | ].
  reflexivity.
Qed.

(** X3.  Exactly which files load, and as what.  The load succeeds if
    and only if the reader reaches the end of the file, every field after
    the first of every non-blank row converts, there is at least one such
    row, all rows have the same number C >= 3 of coordinates, and the R * C
    coordinates are a multiple of 3 * (C / 3).  The dataset then has
    R * C / (3 * (C / 3)) time steps of C / 3 particles and holds the
    coordinates in the order of the file. *)
Theorem X3_when_a_file_loads (content : string) (a : ndarray) :
  load content = Done a <->
  exists particles C,
    snd (reader (file_lines content)) = None
    /\ Forall2 (fun row coords => convert row = Ok coords)
               (nonblank_rows (fst (reader (file_lines content)))) particles
    /\ particles <> []
    /\ Forall (fun r => len r = C) particles
    /\ 3 <= C
    /\ (len particles * C) mod (C / 3 * 3) = 0
    /\ a = {| shape := [len particles * C / (C / 3 * 3); C / 3; 3];
              data := map Float64 (List.concat particles) |}.
Proof.
  split.
  - intros Hload. unfold load, read_particles in Hload.
    destruct (for_rows (fst (reader (file_lines content))) []) as [particles | e] eqn:Hfor;
      [ | discriminate Hload].
    destruct (snd (reader (file_lines content))) as [e | ] eqn:Hend; [discriminate Hload | ].
    destruct (to_dataset_Done particles a Hload)
      as [C [Hne [Hall [Hn [Hmod [Hshape Hdata]]]]]].
    exists particles, C.
    split; [reflexivity | ].
    split; [apply for_rows_Ok, Hfor | ].
    split; [exact Hne | ]. split; [exact Hall | ].
    assert (HC : 0 <= C).
    { destruct particles as [| r rs]; [contradiction | ].
      inversion Hall as [| r' rs' Hr _]; subst. apply len_nonneg. }
    split.
    { pose proof (Z.div_mod C 3 ltac:(lia)). pose proof (Z.mod_pos_bound C 3 ltac:(lia)).
      destruct (Z.eq_dec (C / 3) 0) as [E | N]; [rewrite E in Hn; lia | ].
      assert (0 <= C / 3) by (apply Z.div_pos; lia). lia. }
    split; [exact Hmod | ].
    destruct a as [sh d]. cbn [shape data] in Hshape, Hdata. subst. reflexivity.
  - intros [particles [C [Hend [Hps [Hne [Hall [HC [Hmod ->]]]]]]]].
    unfold load, read_particles.
    apply for_rows_Ok in Hps. rewrite Hps, Hend.
    apply to_dataset_general; assumption.
Qed.

Lemma X3_when_a_file_loads_witness :
  load two_steps
  = Done {| shape := [2 * 3 / (3 / 3 * 3); 3 / 3; 3];
            data := map Float64 (List.concat [[F 0; F 0; F 0]; [F 1; F 1; F 1]]) |}.
Proof.
  apply (proj2 (X3_when_a_file_loads two_steps _)).
  exists [[F 0; F 0; F 0]; [F 1; F 1; F 1]], 3.
  split; [vm_compute; reflexivity | ].
  split; [vm_compute; repeat constructor | ].
  split; [discriminate | ].
  split; [repeat constructor | ].
  split; [lia | ].
  split; reflexivity.
Defined.

(** X4.  The reshape moves nothing.  In a dataset that loads, element
    [t][p][k] is coordinate number 3 * (t * n + p) + k of the file read
    row by row, n being the particle count; the dataset has exactly as many
    elements as the file has coordinates.  This holds whether or not the
    width is a multiple of 3. *)
Theorem X4_elements_in_file_order (content : string) (a : ndarray) :
  load content = Done a ->
  exists particles T n,
    read_particles (reader (file_lines content)) = Done particles
    /\ shape a = [T; n; 3]
    /\ T * n * 3 = len (List.concat particles)
    /\ (forall t p k,
          0 <= t < T -> 0 <= p < n -> 0 <= k < 3 ->
          exists x,
            nth_error (List.concat particles) (flat_index n t p k) = Some x
            /\ getitem3 a t p k = Ok (Float64 x)).
Proof.
  intros Hload.
  destruct (load_Done_shape content a Hload) as [T [n [Hshape [HT [Hn Hlen]]]]].
  unfold load in Hload.
  destruct (read_particles (reader (file_lines content))) as [particles | e line];
    [ | discriminate Hload].
  destruct (to_dataset_Done particles a Hload) as [C [_ [_ [_ [_ [_ Hdata]]]]]].
  exists particles, T, n.
  split; [reflexivity | ]. split; [exact Hshape | ].
  assert (Hcount : T * n * 3 = len (List.concat particles)).
  { rewrite <- Hlen, Hdata. unfold len. rewrite length_map. reflexivity. }
  split; [exact Hcount | ].
  intros t p k Ht Hp Hk.
  destruct (nth_error_in_range (List.concat particles) (flat_index n t p k)) as [x Hx].
  { unfold flat_index, len in *. nia. }
  exists x. split; [exact Hx | ].
  unfold getitem3, check_index. rewrite Hshape.
  replace ((0 <=? t) && (t <? T)) with true by (symmetry; apply andb_true_iff; lia).
  replace ((0 <=? p) && (p <? n)) with true by (symmetry; apply andb_true_iff; lia).
  replace ((0 <=? k) && (k <? 3)) with true by (symmetry; apply andb_true_iff; lia).
  cbn [bind]. unfold flat_get. rewrite Hdata, nth_error_map.
  unfold flat_index in Hx. rewrite Hx. reflexivity.
Qed.

Lemma X4_elements_in_file_order_witness :
  exists a particles T n,
    load seven_columns = Done a
    /\ read_particles (reader (file_lines seven_columns)) = Done particles
    /\ shape a = [T; n; 3]
    /\ T * n * 3 = len (List.concat particles).
Proof.
  assert (Hload : load seven_columns
                  = Done {| shape := [7; 2; 3];
                            data := map Float64 (List.concat
                              (map (map F)
                                 [ [0; 1; 2; 3; 4; 5; 6];
                                   [10; 11; 12; 13; 14; 15; 16];
                                   [20; 21; 22; 23; 24; 25; 26];
                                   [30; 31; 32; 33; 34; 35; 36];
                                   [40; 41; 42; 43; 44; 45; 46];
                                   [50; 51; 52; 53; 54; 55; 56] ]%Q)) |})
    by (vm_compute; reflexivity).
  destruct (X4_elements_in_file_order seven_columns _ Hload)
    as [particles [T [n [Hread [Hshape [Hcount _]]]]]].
  eexists. exists particles, T, n.
  split; [exact Hload | ]. split; [exact Hread | ].
  split; [exact Hshape | exact Hcount].
Defined.

(** *** What a frame shows *)

Lemma nth_error_range (n j : Z) :
  0 <= j < n -> nth_error (range n) (Z.to_nat j) = Some j.
Proof.
  intros Hj. unfold range. rewrite nth_error_map.
  rewrite nth_error_seq.
  destruct (Nat.ltb_spec (Z.to_nat j) (Z.to_nat n)) as [_ | H]; [ | lia].
  cbn. f_equal. lia.
Qed.

Lemma range_snoc (n : Z) : 0 <= n -> range (n + 1) = range n ++ [n].
Proof.
  intros Hn. unfold range.
  replace (Z.to_nat (n + 1)) with (S (Z.to_nat n)) by lia.
  rewrite seq_S, map_app. cbn. f_equal. f_equal. lia.
Qed.

(** The slice along the particle axis lists the elements one by one. *)
Lemma getitem_i_all_k_spec (a : ndarray) (T n i k : Z) (xs : list item) :
  shape a = [T; n; 3] -> 0 <= n -> 0 <= k < 3 ->
  getitem_i_all_k a i k = Ok xs ->
  len xs = n
  /\ (forall j, 0 <= j < n ->
        exists x, nth_error xs (Z.to_nat j) = Some x /\ getitem3 a i j k = Ok x).
Proof.
  intros Hshape Hn Hk Hget.
  unfold getitem_i_all_k in Hget. rewrite Hshape in Hget.
  destruct (check_index i T) as [i' | e] eqn:Hi; cbn [bind] in Hget; [ | discriminate Hget].
  assert (Hck : check_index k 3 = Ok k).
  { unfold check_index.
    replace ((0 <=? k) && (k <? 3)) with true by (symmetry; apply andb_true_iff; lia).
    reflexivity. }
  rewrite Hck in Hget. cbn [bind] in Hget.
  apply map_raise_Forall2 in Hget.
  split.
  - rewrite <- (Forall2_len _ _ _ Hget). apply len_range, Hn.
  - intros j Hj.
    destruct (Forall2_nth_error_left _ _ _ Hget _ _ (nth_error_range n j Hj))
      as [x [Hx Hflat]].
    exists x. split; [exact Hx | ].
    unfold getitem3. rewrite Hshape, Hi, Hck. cbn [bind].
    replace (check_index j n) with (Ok j); [exact Hflat | ].
    unfold check_index.
    replace ((0 <=? j) && (j <? n)) with true by (symmetry; apply andb_true_iff; lia).
    reflexivity.
Qed.

(** X5.  The three coordinate lists that the scatter plot and [animate]
    hand to the plot have one entry per particle each, and entry j of the
    x, y and z list is element [i][j][0], [i][j][1] and [i][j][2] of the
    dataset: every particle is drawn, at its own coordinates of step i. *)
Theorem X5_one_point_per_particle (content : string) (a : ndarray) (i : Z)
    (xs ys zs : list item) :
  load content = Done a ->
  coordinates a i = Ok (xs, ys, zs) ->
  exists n,
    tuple_getitem (shape a) 1 = Ok n
    /\ len xs = n /\ len ys = n /\ len zs = n
    /\ (forall j, 0 <= j < n ->
          exists x y z,
            nth_error xs (Z.to_nat j) = Some x
            /\ nth_error ys (Z.to_nat j) = Some y
            /\ nth_error zs (Z.to_nat j) = Some z
            /\ getitem3 a i j 0 = Ok x
            /\ getitem3 a i j 1 = Ok y
            /\ getitem3 a i j 2 = Ok z).
Proof.
  intros Hload Hcoords.
  destruct (load_Done_shape content a Hload) as [T [n [Hshape [_ [Hn _]]]]].
  unfold coordinates in Hcoords.
  destruct (getitem_i_all_k a i 0) as [xs' | e] eqn:Hx; cbn [bind] in Hcoords;
    [ | discriminate Hcoords].
  destruct (getitem_i_all_k a i 1) as [ys' | e] eqn:Hy; cbn [bind] in Hcoords;
    [ | discriminate Hcoords].
  destruct (getitem_i_all_k a i 2) as [zs' | e] eqn:Hz; cbn [bind] in Hcoords;
    [ | discriminate Hcoords].
  injection Hcoords as -> -> ->.
  destruct (getitem_i_all_k_spec a T n i 0 xs Hshape ltac:(lia) ltac:(lia) Hx) as [Lx Ex].
  destruct (getitem_i_all_k_spec a T n i 1 ys Hshape ltac:(lia) ltac:(lia) Hy) as [Ly Ey].
  destruct (getitem_i_all_k_spec a T n i 2 zs Hshape ltac:(lia) ltac:(lia) Hz) as [Lz Ez].
  exists n. rewrite Hshape.
  split; [reflexivity | ].
  split; [exact Lx | ]. split; [exact Ly | ]. split; [exact Lz | ].
  intros j Hj.
  destruct (Ex j Hj) as [x [Hx1 Hx2]].
  destruct (Ey j Hj) as [y [Hy1 Hy2]].
  destruct (Ez j Hj) as [z [Hz1 Hz2]].
  exists x, y, z. repeat split; assumption.
Qed.

Lemma X5_one_point_per_particle_witness :
  exists a,
    load two_rows = Done a
    /\ coordinates a 1
       = Ok ([float64 0.2; float64 0.5], [float64 0.3; float64 0.6],
             [float64 0.4; float64 0.7])
    /\ exists n,
         tuple_getitem (shape a) 1 = Ok n
         /\ len [float64 0.2; float64 0.5] = n.
Proof.
  eexists.
  assert (Hload : load two_rows
                  = Done {| shape := [2; 2; 3];
                            data := map float64
                              [0.1; 0.2; 0.3; 0.4; 0.5; 0.6;
                               0.2; 0.3; 0.4; 0.5; 0.6; 0.7]%Q |})
    by (vm_compute; reflexivity).
  assert (Hc : coordinates {| shape := [2; 2; 3];
                              data := map float64
                                [0.1; 0.2; 0.3; 0.4; 0.5; 0.6;
                                 0.2; 0.3; 0.4; 0.5; 0.6; 0.7]%Q |} 1
               = Ok ([float64 0.2; float64 0.5], [float64 0.3; float64 0.6],
                     [float64 0.4; float64 0.7]))
    by (vm_compute; reflexivity).
  split; [exact Hload | ]. split; [exact Hc | ].
  destruct (X5_one_point_per_particle two_rows _ 1 _ _ _ Hload Hc)
    as [n [Hn [Hx _]]].
  exists n. split; [exact Hn | exact Hx].
Defined.

Lemma draw_frames_app (f : Z -> Path3DCollection -> result Path3DCollection)
    (l1 l2 : list Z) :
  forall points,
    draw_frames f (l1 ++ l2) points =
      (points' <- draw_frames f l1 points ;; draw_frames f l2 points').
Proof.
  induction l1 as [| i l1 IH]; intros points; cbn [app draw_frames bind]; [reflexivity | ].
  destruct (f i points) as [p | e]; cbn [bind]; [apply IH | reflexivity].
Qed.

Lemma draw_frames_animate_total (a : ndarray) (l : list Z) :
  Forall (fun i => exists offsets, coordinates a i = Ok offsets) l ->
  forall points, exists points', draw_frames (animate a) l points = Ok points'.
Proof.
  induction 1 as [| i l [offsets Hi] _ IH]; intros points; cbn [draw_frames].
  - exists points. reflexivity.
  - unfold animate at 1. rewrite Hi. cbn [bind]. apply IH.
Qed.

(** X6.  One pass of the animation never raises, and it ends on the last
    step but one: with T >= 2 time steps the plot is left showing step
    T - 2, whatever it showed before; with a single time step no frame is
    drawn and the plot keeps what it showed. *)
Theorem X6_one_pass_of_the_animation (content : string) (a : ndarray) (T : Z)
    (first : Path3DCollection) :
  load content = Done a ->
  time_steps a = Ok T ->
  (T = 1 ->
   play {| func := animate a; interval := 10; frames := T - 1 |} first = Ok first)
  /\ (2 <= T ->
      exists offsets,
        coordinates a (T - 2) = Ok offsets
        /\ play {| func := animate a; interval := 10; frames := T - 1 |} first
           = Ok {| _offsets3d := offsets |}).
Proof.
  intros Hload HT.
  destruct (load_Done_shape content a Hload) as [T' [n [Hshape [HT1 [Hn Hdata]]]]].
  unfold time_steps in HT. rewrite Hshape in HT. cbn in HT. injection HT as ->.
  split.
  - intros ->. reflexivity.
  - intros H2.
    destruct (coordinates_in_range a T n Hshape ltac:(lia) Hdata (T - 2) ltac:(lia))
      as [offsets Hlast].
    exists offsets. split; [exact Hlast | ].
    unfold play, new_frame_seq. cbn [func frames].
    replace (T - 1) with (T - 2 + 1) by lia.
    rewrite (range_snoc (T - 2)) by lia.
    rewrite draw_frames_app.
    destruct (draw_frames_animate_total a (range (T - 2))) with (points := first)
      as [points' ->].
    { apply Forall_forall. intros i Hi. apply In_range in Hi.
      apply (coordinates_in_range a T n Hshape ltac:(lia) Hdata). lia. }
    cbn [bind draw_frames]. unfold animate. rewrite Hlast. reflexivity.
Qed.

Lemma X6_one_pass_of_the_animation_witness :
  exists a,
    load seven_columns = Done a
    /\ time_steps a = Ok 7
    /\ 2 <= 7
    /\ exists offsets,
         coordinates a (7 - 2) = Ok offsets
         /\ play {| func := animate a; interval := 10; frames := 7 - 1 |}
                 {| _offsets3d := ([], [], []) |}
            = Ok {| _offsets3d := offsets |}.
Proof.
  eexists.
  assert (Hload : load seven_columns
                  = Done {| shape := [7; 2; 3];
                            data := map Float64 (List.concat
                              (map (map F)
                                 [ [0; 1; 2; 3; 4; 5; 6];
                                   [10; 11; 12; 13; 14; 15; 16];
                                   [20; 21; 22; 23; 24; 25; 26];
                                   [30; 31; 32; 33; 34; 35; 36];
                                   [40; 41; 42; 43; 44; 45; 46];
                                   [50; 51; 52; 53; 54; 55; 56] ]%Q)) |})
    by (vm_compute; reflexivity).
  split; [exact Hload | ]. split; [reflexivity | ]. split; [lia | ].
  destruct (X6_one_pass_of_the_animation seven_columns _ 7
              {| _offsets3d := ([], [], []) |} Hload eq_refl) as [_ H2].
  apply H2. lia.
Defined.

(** X7.  The frame numbers [animate] accepts.  On a dataset of T time
    steps [animate(i)] succeeds exactly for -T <= i < T; any other frame
    number raises IndexError; a negative one counts from the end, so
    [animate(i)] shows what [animate(i + T)] shows. *)
Theorem X7_animate_index_bounds (content : string) (a : ndarray) (T i : Z)
    (points : Path3DCollection) :
  load content = Done a ->
  time_steps a = Ok T ->
  (- T <= i < T ->
   exists offsets, animate a i points = Ok {| _offsets3d := offsets |})
  /\ (~ (- T <= i < T) -> animate a i points = Raise IndexError)
  /\ (- T <= i < 0 -> animate a i points = animate a (i + T) points).
Proof.
  intros Hload HT.
  destruct (load_Done_shape content a Hload) as [T' [n [Hshape [HT1 [Hn Hdata]]]]].
  unfold time_steps in HT. rewrite Hshape in HT. cbn in HT. injection HT as ->.
  assert (Hwrap : - T <= i < 0 -> forall k, getitem_i_all_k a i k = getitem_i_all_k a (i + T) k).
  { intros Hi k. unfold getitem_i_all_k, check_index. rewrite Hshape.
    replace ((0 <=? i) && (i <? T)) with false by (symmetry; apply andb_false_iff; lia).
    replace ((- T <=? i) && (i <? 0)) with true by (symmetry; apply andb_true_iff; lia).
    replace ((0 <=? i + T) && (i + T <? T)) with true by (symmetry; apply andb_true_iff; lia).
    reflexivity. }
  assert (Hneg : - T <= i < 0 -> animate a i points = animate a (i + T) points).
  { intros Hi. unfold animate, coordinates. rewrite !(Hwrap Hi). reflexivity. }
  split; [ | split; [ | exact Hneg]].
  - intros Hi.
    assert (Hpos : forall i', 0 <= i' < T ->
              exists offsets, animate a i' points = Ok {| _offsets3d := offsets |}).
    { intros i' Hi'.
      destruct (coordinates_in_range a T n Hshape ltac:(lia) Hdata i' Hi') as [offsets Ho].
      exists offsets. unfold animate. rewrite Ho. reflexivity. }
    destruct (Z.lt_ge_cases i 0) as [Hlt | Hge].
    + rewrite Hneg by lia. apply Hpos. lia.
    + apply Hpos. lia.
  - intros Hout. unfold animate, coordinates, getitem_i_all_k, check_index.
    rewrite Hshape.
    replace ((0 <=? i) && (i <? T)) with false by (symmetry; apply andb_false_iff; lia).
    replace ((- T <=? i) && (i <? 0)) with false by (symmetry; apply andb_false_iff; lia).
    reflexivity.
Qed.

Lemma X7_animate_index_bounds_witness :
  exists a,
    load two_steps = Done a
    /\ time_steps a = Ok 2
    /\ animate a 2 {| _offsets3d := ([], [], []) |} = Raise IndexError
    /\ animate a (-1) {| _offsets3d := ([], [], []) |}
       = animate a (-1 + 2) {| _offsets3d := ([], [], []) |}.
Proof.
  eexists.
  assert (Hload : load two_steps
                  = Done {| shape := [2; 1; 3];
                            data := map float64 [0; 0; 0; 1; 1; 1]%Q |})
    by (vm_compute; reflexivity).
  split; [exact Hload | ]. split; [reflexivity | ].
  destruct (X7_animate_index_bounds two_steps _ 2 2 {| _offsets3d := ([], [], []) |}
              Hload eq_refl) as [_ [Hout _]].
  destruct (X7_animate_index_bounds two_steps _ 2 (-1) {| _offsets3d := ([], [], []) |}
              Hload eq_refl) as [_ [_ Hneg]].
  split; [apply Hout; lia | apply Hneg; lia].
Defined.

(** *** Lines of plain fields *)

Lemma plain_char_facts (c : ascii) :
  is_plain_char c = true ->
  Ascii.eqb c NUL = false /\ is_newline c = false
  /\ Ascii.eqb c delimiter = false /\ Ascii.eqb c quotechar = false.
Proof.
  unfold is_plain_char. rewrite negb_true_iff, !orb_false_iff. tauto.
Qed.

Lemma string_append_assoc (s1 s2 s3 : string) :
  ((s1 ++ s2) ++ s3)%string = (s1 ++ (s2 ++ s3))%string.
Proof.
  induction s1 as [| c s1 IH]; cbn; [reflexivity | rewrite IH; reflexivity].
Qed.

Lemma string_length_append (s1 s2 : string) :
  String.length (s1 ++ s2) = (String.length s1 + String.length s2)%nat.
Proof.
  induction s1 as [| c s1 IH]; cbn; [reflexivity | rewrite IH; reflexivity].
Qed.

(** A plain character joins an unquoted field that has room for it. *)
Lemma add_plain_char (fs : list string) (w : string) (c : ascii) :
  is_plain_char c = true ->
  Z.of_nat (String.length w) < field_limit ->
  parse_process_char (mkReader fs IN_FIELD w) c
  = Ok (mkReader fs IN_FIELD (w ++ String c "")%string).
Proof.
  intros Hc Hroom. destruct (plain_char_facts c Hc) as [H0 [Hnl [Hd _]]].
  unfold parse_process_char. cbn [state]. rewrite Hnl, H0, Hd. cbn [orb].
  unfold parse_add_char, field_len. cbn [fields state field].
  destruct (Z.leb_spec field_limit (Z.of_nat (String.length w))) as [Hfull | _];
    [lia | reflexivity].
Qed.

(** It is refused by a field that is full. *)
Lemma refuse_plain_char (fs : list string) (w : string) (c : ascii) :
  is_plain_char c = true ->
  field_limit <= Z.of_nat (String.length w) ->
  parse_process_char (mkReader fs IN_FIELD w) c = Raise csv_Error.
Proof.
  intros Hc Hfull. destruct (plain_char_facts c Hc) as [H0 [Hnl [Hd _]]].
  unfold parse_process_char. cbn [state]. rewrite Hnl, H0, Hd. cbn [orb].
  unfold parse_add_char, field_len. cbn [fields state field].
  destruct (Z.leb_spec field_limit (Z.of_nat (String.length w))) as [_ | Hroom];
    [reflexivity | lia].
Qed.

Lemma in_field_plain (s : string) :
  forall fs w,
    all_chars is_plain_char s = true ->
    Z.of_nat (String.length w + String.length s) <= field_limit ->
    process_chars (mkReader fs IN_FIELD w) s = Ok (mkReader fs IN_FIELD (w ++ s)%string).
Proof.
  induction s as [| c s IH]; intros fs w Hs Hlen; cbn [process_chars].
  - rewrite append_empty_r. reflexivity.
  - cbn [all_chars] in Hs. apply andb_true_iff in Hs. destruct Hs as [Hc Hs].
    cbn [String.length] in Hlen.
    destruct (plain_char_facts c Hc) as [H0 _]. rewrite H0.
    rewrite (add_plain_char fs w c Hc) by lia. cbn [bind].
    rewrite (IH fs _ Hs), append_cons_assoc; [reflexivity | ].
    rewrite string_length_append. cbn [String.length]. lia.
Qed.

(** Characters beyond the limit make the reader raise, whatever follows
    them on the line. *)
Lemma in_field_overflow (s tail : string) :
  forall fs w,
    all_chars is_plain_char s = true ->
    Z.of_nat (String.length w) <= field_limit ->
    field_limit < Z.of_nat (String.length w + String.length s) ->
    process_chars (mkReader fs IN_FIELD w) (s ++ tail)%string = Raise csv_Error.
Proof.
  induction s as [| c s IH]; intros fs w Hs Hw Hlen.
  - cbn [String.length] in Hlen. lia.
  - cbn [all_chars] in Hs. apply andb_true_iff in Hs. destruct Hs as [Hc Hs].
    cbn [String.length] in Hlen. cbn [append process_chars].
    destruct (plain_char_facts c Hc) as [H0 _]. rewrite H0.
    destruct (Z.eq_dec (Z.of_nat (String.length w)) field_limit) as [Hfull | Hroom].
    + rewrite (refuse_plain_char fs w c Hc) by lia. reflexivity.
    + rewrite (add_plain_char fs w c Hc) by lia. cbn [bind].
      apply (IH fs _ Hs); rewrite string_length_append; cbn [String.length]; lia.
Qed.

Lemma plain_field_chars (f : string) :
  plain_field f = true -> all_chars is_plain_char f = true.
Proof. unfold plain_field. intros H. apply andb_true_iff in H. apply H. Qed.

Lemma plain_field_length (f : string) :
  plain_field f = true -> Z.of_nat (String.length f) <= field_limit.
Proof.
  unfold plain_field. intros H. apply andb_true_iff in H. apply Z.leb_le, H.
Qed.

Lemma plain_fields_chars (row : list string) :
  forallb plain_field row = true -> forallb (all_chars is_plain_char) row = true.
Proof.
  rewrite !forallb_forall. intros H f Hin. apply plain_field_chars, H, Hin.
Qed.

Lemma field_from_start (acc : list string) (f : string) :
  plain_field f = true ->
  process_chars (mkReader acc START_FIELD "") f = Ok (after_field acc f).
Proof.
  intros Hf. pose proof (plain_field_chars f Hf) as Hchars.
  pose proof (plain_field_length f Hf) as Hlen.
  destruct f as [| c f]; [reflexivity | ].
  cbn [all_chars] in Hchars. apply andb_true_iff in Hchars. destruct Hchars as [Hc Hchars].
  destruct (plain_char_facts c Hc) as [H0 [Hnl [Hd Hq]]].
  cbn [process_chars]. rewrite H0.
  unfold parse_process_char, start_field. cbn [state]. rewrite Hnl, H0, Hq, Hd.
  cbn [orb]. unfold parse_add_char, field_len. cbn [fields state field String.length].
  change (field_limit <=? Z.of_nat 0) with false. cbn iota. cbn [bind].
  unfold set_state. cbn [fields state field append].
  rewrite (in_field_plain f acc _ Hchars); [reflexivity | ].
  cbn [String.length] in *. lia.
Qed.

Lemma delimiter_after_field (acc : list string) (f : string) :
  parse_process_char (after_field acc f) delimiter
  = Ok (mkReader (acc ++ [f]) START_FIELD "").
Proof. destruct f; reflexivity. Qed.

Lemma end_after_field (acc : list string) (f eol : string) :
  all_chars is_newline eol = true ->
  (self <- process_chars (after_field acc f) eol ;; parse_process_char self NUL)
  = Ok (mkReader (acc ++ [f]) START_RECORD "").
Proof.
  intros Heol. destruct eol as [| c eol].
  - destruct f; reflexivity.
  - cbn [all_chars] in Heol. apply andb_true_iff in Heol. destruct Heol as [Hc Heol].
    cbn [process_chars].
    replace (Ascii.eqb c NUL) with false
      by (destruct (newline_cases c Hc) as [-> | ->]; reflexivity).
    replace (parse_process_char (after_field acc f) c)
      with (Ok (mkReader (acc ++ [f]) EAT_CRNL ""))
      by (destruct (newline_cases c Hc) as [-> | ->]; destruct f; reflexivity).
    cbn [bind]. rewrite (eat_crnl eol _ _ Heol). reflexivity.
Qed.

(** A line of plain fields, entered at START_FIELD. *)
Lemma process_plain_fields (row : list string) (eol : string) :
  all_chars is_newline eol = true ->
  forall acc,
    row <> [] ->
    forallb plain_field row = true ->
    (self <- process_chars (mkReader acc START_FIELD "") (join row ++ eol)%string ;;
     parse_process_char self NUL)
    = Ok (mkReader (acc ++ row) START_RECORD "").
Proof.
  intros Heol.
  induction row as [| f rest IH]; intros acc Hne Hplain; [contradiction | ].
  cbn [forallb] in Hplain. apply andb_true_iff in Hplain. destruct Hplain as [Hf Hrest].
  destruct rest as [| g rest].
  - cbn [join].
    rewrite process_chars_app, (field_from_start acc f Hf). cbn [bind].
    apply end_after_field, Heol.
  - change (join (f :: g :: rest))
      with (f ++ String delimiter (join (g :: rest)))%string.
    rewrite string_append_assoc.
    rewrite process_chars_app, (field_from_start acc f Hf). cbn [bind append process_chars].
    change (Ascii.eqb delimiter NUL) with false. cbn iota.
    rewrite delimiter_after_field. cbn [bind].
    rewrite (IH (acc ++ [f]) ltac:(discriminate) Hrest), <- app_assoc. reflexivity.
Qed.

(** The first character of a line decides as at START_FIELD, unless it
    ends the line. *)
Lemma start_record_as_start_field (c : ascii) (s : string) :
  Ascii.eqb c NUL = false -> is_newline c = false ->
  process_chars parse_reset (String c s)
  = process_chars (mkReader [] START_FIELD "") (String c s).
Proof.
  intros H0 Hnl. cbn [process_chars]. rewrite H0.
  unfold parse_process_char. cbn [parse_reset state]. rewrite H0, Hnl. reflexivity.
Qed.

Lemma process_plain_line (row : list string) (eol : string) :
  plain_row row = true ->
  all_chars is_newline eol = true ->
  process_line parse_reset (join row ++ eol)%string = Ok (mkReader row START_RECORD "").
Proof.
  unfold plain_row. intros H Heol. apply andb_true_iff in H. destruct H as [Hplain Hshape].
  destruct row as [| f rest]; [apply process_empty_line, Heol | ].
  unfold process_line.
  assert (Hfirst : exists c s, (join (f :: rest) ++ eol)%string = String c s
                               /\ Ascii.eqb c NUL = false /\ is_newline c = false).
  { destruct f as [| c f].
    - destruct rest as [| g rest]; [discriminate Hshape | ].
      exists delimiter. eexists. split; [reflexivity | split; reflexivity].
    - pose proof (plain_fields_chars _ Hplain) as Hchars.
      cbn [forallb all_chars] in Hchars.
      apply andb_true_iff in Hchars. destruct Hchars as [Hc _].
      apply andb_true_iff in Hc. destruct Hc as [Hc _].
      destruct (plain_char_facts c Hc) as [H0 [Hnl _]].
      exists c. destruct rest; eexists; (split; [reflexivity | split; assumption]). }
  destruct Hfirst as [c [s [Hline [H0 Hnl]]]].
  rewrite Hline, (start_record_as_start_field c s H0 Hnl), <- Hline.
  apply (process_plain_fields (f :: rest) eol Heol []); [discriminate | exact Hplain].
Qed.

(** Lines of plain fields, each with line ends of its own, are read as
    their rows. *)
Lemma reader_plain_lines (lines : list string) (rows : list (list string)) :
  Forall2 (fun l row =>
             plain_row row = true
             /\ exists eol, all_chars is_newline eol = true /\ l = (join row ++ eol)%string)
          lines rows ->
  reader lines = (rows, None).
Proof.
  induction 1 as [| l row lines rows [Hrow [eol [Heol ->]]] _ IH]; [reflexivity | ].
  unfold reader. cbn [reader_from]. rewrite (process_plain_line row eol Hrow Heol).
  cbn [state fields]. fold (reader lines). rewrite IH. reflexivity.
Qed.

(** A line that begins with more plain characters than a field may hold
    stops the reader. *)
Lemma reader_field_too_long (f tail : string) (rest : list string) :
  all_chars is_plain_char f = true ->
  field_limit < Z.of_nat (String.length f) ->
  reader ((f ++ tail)%string :: rest) = ([], Some csv_Error).
Proof.
  intros Hchars Hlen.
  assert (Hline : process_chars parse_reset (f ++ tail)%string = Raise csv_Error).
  { destruct f as [| c f]; [cbn in Hlen; unfold field_limit in Hlen; lia | ].
    cbn [all_chars] in Hchars. apply andb_true_iff in Hchars. destruct Hchars as [Hc Hchars].
    destruct (plain_char_facts c Hc) as [H0 [Hnl [Hd Hq]]].
    cbn [append]. rewrite (start_record_as_start_field c _ H0 Hnl).
    cbn [process_chars]. rewrite H0.
    unfold parse_process_char, start_field. cbn [state]. rewrite Hnl, H0, Hq, Hd.
    cbn [orb]. unfold parse_add_char, field_len. cbn [fields state field String.length].
    change (field_limit <=? Z.of_nat 0) with false. cbn iota. cbn [bind].
    unfold set_state. cbn [fields state field append].
    apply in_field_overflow; [exact Hchars | cbn; unfold field_limit; lia | ].
    cbn [String.length] in *. lia. }
  unfold reader. cbn [reader_from]. unfold process_line. rewrite Hline. reflexivity.
Qed.

(** *** Lines of blanks *)







(** *** Writing a file and reading it back *)

Lemma join_has_no_LF (row : list string) :
  forallb (all_chars is_plain_char) row = true ->
  all_chars (fun c => negb (Ascii.eqb c LF)) (join row) = true.
Proof.
  assert (Happ : forall s1 s2,
            all_chars (fun c => negb (Ascii.eqb c LF)) s1 = true ->
            all_chars (fun c => negb (Ascii.eqb c LF)) s2 = true ->
            all_chars (fun c => negb (Ascii.eqb c LF)) (s1 ++ s2)%string = true).
  { induction s1 as [| c s1 IH]; intros s2 H1 H2; [exact H2 | ].
    cbn [append all_chars] in *. apply andb_true_iff in H1. destruct H1 as [Hc H1].
    rewrite Hc, (IH s2 H1 H2). reflexivity. }
  assert (Hfield : forall f, all_chars is_plain_char f = true ->
            all_chars (fun c => negb (Ascii.eqb c LF)) f = true).
  { induction f as [| c f IH]; intros Hf; [reflexivity | ].
    cbn [all_chars] in *. apply andb_true_iff in Hf. destruct Hf as [Hc Hf].
    destruct (plain_char_facts c Hc) as [_ [Hnl _]].
    unfold is_newline in Hnl. apply orb_false_iff in Hnl. destruct Hnl as [Hlf _].
    rewrite Hlf, (IH Hf). reflexivity. }
  induction row as [| f rest IH]; intros Hplain; [reflexivity | ].
  cbn [forallb] in Hplain. apply andb_true_iff in Hplain. destruct Hplain as [Hf Hrest].
  destruct rest as [| g rest]; [exact (Hfield f Hf) | ].
  change (join (f :: g :: rest)) with (f ++ String delimiter (join (g :: rest)))%string.
  apply Happ; [exact (Hfield f Hf) | ].
  cbn [all_chars]. rewrite (IH Hrest). reflexivity.
Qed.

(** A line without \n inside is one line of the file. *)
Lemma file_lines_line (l rest : string) :
  all_chars (fun c => negb (Ascii.eqb c LF)) l = true ->
  file_lines (line l ++ rest)%string = line l :: file_lines rest.
Proof.
  induction l as [| c l IH]; intros Hl.
  - reflexivity.
  - cbn [all_chars] in Hl. apply andb_true_iff in Hl. destruct Hl as [Hc Hl].
    apply negb_true_iff in Hc.
    unfold line in *. cbn [append file_lines]. rewrite Hc, (IH Hl). reflexivity.
Qed.

Lemma write_rows_as_with (rows : list (list string)) :
  write_rows rows = write_rows_with (String LF "") rows.
Proof.
  unfold write_rows.
  induction rows as [| row rows IH]; [reflexivity | ].
  cbn [map unlines write_rows_with]. rewrite IH. unfold line.
  apply string_append_assoc.
Qed.

(** The lines of a written file, for a line end that is some \r and then
    \n. *)
Lemma file_lines_write_rows_with (cr : string) (rows : list (list string)) :
  all_chars (fun c => Ascii.eqb c CR) cr = true ->
  Forall (fun row => forallb (all_chars is_plain_char) row = true) rows ->
  file_lines (write_rows_with (cr ++ String LF "") rows)
  = map (fun row => (join row ++ cr ++ String LF "")%string) rows.
Proof.
  intros Hcr. induction 1 as [| row rows Hrow _ IH]; [reflexivity | ].
  cbn [write_rows_with map].
  rewrite <- (string_append_assoc (join row)), <- (string_append_assoc (join row) cr).
  change ((join row ++ cr) ++ String LF "")%string with (line (join row ++ cr)).
  rewrite file_lines_line, IH; [reflexivity | ].
  pose proof (join_has_no_LF row Hrow) as Hj.
  clear - Hj Hcr. induction (join row) as [| c s IHs].
  - cbn [append]. induction cr as [| c cr IHc]; [reflexivity | ].
    cbn [all_chars] in *. apply andb_true_iff in Hcr. destruct Hcr as [Hc Hcr].
    apply Ascii.eqb_eq in Hc. subst c. rewrite (IHc Hcr). reflexivity.
  - cbn [append all_chars] in *. apply andb_true_iff in Hj. destruct Hj as [Hc Hj].
    rewrite Hc, (IHs Hj). reflexivity.
Qed.

Lemma plain_rows_fields (rows : list (list string)) :
  forallb plain_row rows = true ->
  Forall (fun row => forallb (all_chars is_plain_char) row = true) rows.
Proof.
  intros H. apply Forall_forall. intros row Hin.
  rewrite forallb_forall in H. specialize (H row Hin).
  unfold plain_row in H. apply andb_true_iff in H.
  apply plain_fields_chars, H.
Qed.

Lemma reader_write_rows_with (cr : string) (rows : list (list string)) :
  all_chars (fun c => Ascii.eqb c CR) cr = true ->
  forallb plain_row rows = true ->
  reader (file_lines (write_rows_with (cr ++ String LF "") rows)) = (rows, None).
Proof.
  intros Hcr Hrows.
  rewrite (file_lines_write_rows_with cr rows Hcr (plain_rows_fields rows Hrows)).
  apply reader_plain_lines.
  assert (Heol : all_chars is_newline (cr ++ String LF "")%string = true).
  { clear - Hcr. induction cr as [| c cr IH]; [reflexivity | ].
    cbn [append all_chars] in *. apply andb_true_iff in Hcr. destruct Hcr as [Hc Hcr].
    apply Ascii.eqb_eq in Hc. subst c. rewrite (IH Hcr). reflexivity. }
  rewrite forallb_forall in Hrows.
  induction rows as [| row rows IH]; [constructor | ].
  cbn [map]. constructor.
  - split; [apply Hrows; left; reflexivity | ].
    exists (cr ++ String LF "")%string. split; [exact Heol | reflexivity].
  - apply IH. intros r Hr. apply Hrows. right. exact Hr.
Qed.

Lemma plain_rows_nonblank (rows : list (list string)) :
  forallb plain_row rows = true -> forallb plain_row (nonblank_rows rows) = true.
Proof.
  induction rows as [| row rows IH]; intros H; [reflexivity | ].
  cbn [forallb] in H. apply andb_true_iff in H. destruct H as [Hrow Hrows].
  unfold nonblank_rows. cbn [filter]. fold (nonblank_rows rows).
  destruct (nonblank row); [cbn [forallb]; rewrite Hrow | ]; apply IH, Hrows.
Qed.

(** X8.  A file written one row per line, its fields joined by commas,
    is read back as the same rows, when the fields hold no comma, quote,
    line end or NUL, none is longer than the reader's field limit of 131072
    characters, and no row is the single empty field; a row without fields
    is an empty line and is read back as a blank row.  Leaving the empty
    lines out of such a file does not change what is loaded.  A field
    beyond the limit is not read back: the reader raises. *)
Theorem X8_written_rows_are_read_back (rows : list (list string)) :
  forallb plain_row rows = true ->
  reader (file_lines (write_rows rows)) = (rows, None)
  /\ load (write_rows rows) = load (write_rows (nonblank_rows rows))
  /\ (forall f tail rest,
        all_chars is_plain_char f = true ->
        field_limit < Z.of_nat (String.length f) ->
        reader ((f ++ tail)%string :: rest) = ([], Some csv_Error)).
Proof.
  intros Hrows.
  assert (Hread : forall rs, forallb plain_row rs = true ->
            reader (file_lines (write_rows rs)) = (rs, None)).
  { intros rs Hrs. rewrite write_rows_as_with.
    apply (reader_write_rows_with "" rs eq_refl Hrs). }
  split; [apply Hread, Hrows | ].
  split; [ | intros f tail rest; apply reader_field_too_long].
  unfold load, read_particles.
  rewrite (Hread rows Hrows), (Hread _ (plain_rows_nonblank rows Hrows)).
  cbn [fst snd]. rewrite (for_rows_skips_blank rows). reflexivity.
Qed.

Lemma X8_written_rows_are_read_back_witness :
  forallb plain_row [["p 1"; "0.5"; ""; "x"]; []; [""; ""]; ["last"]] = true
  /\ reader (file_lines (write_rows [["p 1"; "0.5"; ""; "x"]; []; [""; ""]; ["last"]]))
     = ([["p 1"; "0.5"; ""; "x"]; []; [""; ""]; ["last"]], None).
Proof.
  split; [reflexivity | ].
  apply (X8_written_rows_are_read_back
           [["p 1"; "0.5"; ""; "x"]; []; [""; ""]; ["last"]]).
  reflexivity.
Defined.

(** X9.  The line end does not matter.  The same rows (plain fields
    within the field limit) written with \r\n after each row are read as
    the same rows, the file being opened in binary mode, and the file loads
    exactly as the one written with \n: the same dataset or the same
    exception from the same line. *)
Theorem X9_CRLF_file_loads_the_same (rows : list (list string)) :
  forallb plain_row rows = true ->
  reader (file_lines (write_rows_with CRLF rows)) = (rows, None)
  /\ load (write_rows_with CRLF rows) = load (write_rows rows).
Proof.
  intros Hrows.
  assert (Hcrlf : reader (file_lines (write_rows_with CRLF rows)) = (rows, None)).
  { apply (reader_write_rows_with (String CR "") rows eq_refl Hrows). }
  split; [exact Hcrlf | ].
  pose proof (reader_write_rows_with "" rows eq_refl Hrows) as Hlf.
  cbn [append] in Hlf.
  unfold load. rewrite Hcrlf, write_rows_as_with, Hlf. reflexivity.
Qed.

Lemma X9_CRLF_file_loads_the_same_witness :
  forallb plain_row [["a"; "0"; "0"; "0"]; []; ["b"; "1"; "1"; "1"]] = true
  /\ load (write_rows_with CRLF [["a"; "0"; "0"; "0"]; []; ["b"; "1"; "1"; "1"]])
     = load (write_rows [["a"; "0"; "0"; "0"]; []; ["b"; "1"; "1"; "1"]]).
Proof.
  split; [reflexivity | ].
  apply (X9_CRLF_file_loads_the_same [["a"; "0"; "0"; "0"]; []; ["b"; "1"; "1"; "1"]]).
  reflexivity.
Defined.

Lemma file_lines_single (l : string) :
  l <> "" ->
  all_chars (fun c => negb (Ascii.eqb c LF)) l = true ->
  file_lines l = [l].
Proof.
  induction l as [| c l IH]; intros Hne Hl; [contradiction | ].
  cbn [all_chars] in Hl. apply andb_true_iff in Hl. destruct Hl as [Hc Hl].
  apply negb_true_iff in Hc. cbn [file_lines]. rewrite Hc.
  destruct l as [| d l]; [reflexivity | ].
  rewrite (IH ltac:(discriminate) Hl). reflexivity.
Qed.

Lemma file_lines_unterminated (rows : list (list string)) (l : string) :
  Forall (fun row => forallb (all_chars is_plain_char) row = true) rows ->
  l <> "" ->
  all_chars (fun c => negb (Ascii.eqb c LF)) l = true ->
  file_lines (write_rows rows ++ l)%string = map (fun row => line (join row)) rows ++ [l].
Proof.
  intros Hrows Hne Hl. unfold write_rows.
  induction Hrows as [| row rows Hrow _ IH]; [apply file_lines_single; assumption | ].
  cbn [map unlines app]. rewrite string_append_assoc.
  rewrite file_lines_line, IH; [reflexivity | apply join_has_no_LF, Hrow].
Qed.

Lemma join_nonempty (row : list string) :
  plain_row row = true -> row <> [] -> join row <> "".
Proof.
  unfold plain_row. intros H Hne. apply andb_true_iff in H. destruct H as [_ Hshape].
  destruct row as [| f rest]; [contradiction | ].
  destruct rest as [| g rest].
  - destruct f; [discriminate Hshape | discriminate].
  - change (join (f :: g :: rest)) with (f ++ String delimiter (join (g :: rest)))%string.
    destruct f; discriminate.
Qed.

(** X10.  The last line needs no line end.  A file of plain rows (fields
    within the field limit) whose last row is not followed by \n is read
    as the same rows and loads exactly as the file with the \n. *)
Theorem X10_last_line_needs_no_line_end (rows : list (list string)) (row : list string) :
  forallb plain_row rows = true ->
  plain_row row = true ->
  row <> [] ->
  reader (file_lines (write_rows rows ++ join row)%string) = (rows ++ [row], None)
  /\ load (write_rows rows ++ join row)%string = load (write_rows (rows ++ [row])).
Proof.
  intros Hrows Hrow Hne.
  assert (Hfields : forallb (all_chars is_plain_char) row = true).
  { unfold plain_row in Hrow. apply andb_true_iff in Hrow.
    apply plain_fields_chars, Hrow. }
  assert (Hread : reader (file_lines (write_rows rows ++ join row)%string)
                  = (rows ++ [row], None)).
  { rewrite (file_lines_unterminated rows (join row) (plain_rows_fields rows Hrows)
               (join_nonempty row Hrow Hne) (join_has_no_LF row Hfields)).
    apply reader_plain_lines. apply Forall2_app.
    - rewrite forallb_forall in Hrows. clear - Hrows.
      induction rows as [| r rows IH]; [constructor | ].
      cbn [map]. constructor.
      + split; [apply Hrows; left; reflexivity | ].
        exists (String LF ""). split; reflexivity.
      + apply IH. intros r' Hr'. apply Hrows. right. exact Hr'.
    - constructor; [ | constructor].
      split; [exact Hrow | ]. exists "". split; [reflexivity | ].
      symmetry. apply append_empty_r. }
  split; [exact Hread | ].
  assert (Hall : forallb plain_row (rows ++ [row]) = true).
  { rewrite forallb_app, Hrows. cbn [forallb]. rewrite Hrow. reflexivity. }
  pose proof (reader_write_rows_with "" (rows ++ [row]) eq_refl Hall) as Hlf.
  cbn [append] in Hlf.
  unfold load. rewrite Hread, write_rows_as_with, Hlf. reflexivity.
Qed.

Lemma X10_last_line_needs_no_line_end_witness :
  forallb plain_row [["a"; "0"; "0"; "0"]] = true
  /\ plain_row ["b"; "1"; "1"; "1"] = true
  /\ ["b"; "1"; "1"; "1"] <> []
  /\ reader (file_lines (write_rows [["a"; "0"; "0"; "0"]] ++ join ["b"; "1"; "1"; "1"])%string)
     = ([["a"; "0"; "0"; "0"]] ++ [["b"; "1"; "1"; "1"]], None).
Proof.
  split; [reflexivity | ]. split; [reflexivity | ]. split; [discriminate | ].
  apply (X10_last_line_needs_no_line_end [["a"; "0"; "0"; "0"]] ["b"; "1"; "1"; "1"]);
    [reflexivity | reflexivity | discriminate].
Defined.

(** *** Time steps and rows *)

(** X11.  Time steps against rows.  When a file of R non-blank rows of
    C coordinates loads, the T time steps of the dataset satisfy
    T * 3 * (C / 3) = R * C: there are never fewer time steps than rows,
    and there are exactly as many if and only if C is a multiple of 3. *)
Theorem X11_time_steps_against_rows (content : string) (a : ndarray) (T : Z) :
  load content = Done a ->
  time_steps a = Ok T ->
  exists R C,
    R = len (nonblank_rows (fst (reader (file_lines content))))
    /\ Forall (fun row => len (skipn 1 row) = C)
              (nonblank_rows (fst (reader (file_lines content))))
    /\ T * (3 * (C / 3)) = R * C
    /\ R <= T
    /\ (T = R <-> C mod 3 = 0).
Proof.
  intros Hload HT. unfold load, read_particles in Hload.
  destruct (for_rows (fst (reader (file_lines content))) []) as [particles | e] eqn:Hfor;
    [ | discriminate Hload].
  destruct (snd (reader (file_lines content))); [discriminate Hload | ].
  apply for_rows_Ok in Hfor.
  destruct (to_dataset_Done particles a Hload)
    as [C [Hne [Hall [Hn [Hmod [Hshape _]]]]]].
  unfold time_steps in HT. rewrite Hshape in HT. cbn in HT. injection HT as <-.
  exists (len particles), C.
  split; [symmetry; eapply Forall2_len, Hfor | ].
  split.
  { clear - Hfor Hall.
    induction Hfor as [| row coords rows ps Hc _ IH]; [constructor | ].
    inversion Hall as [| r rs Hr Hrs]; subst.
    constructor; [symmetry; apply convert_len, Hc | apply IH, Hrs]. }
  assert (HC : 0 <= C).
  { destruct particles as [| r rs]; [contradiction | ].
    inversion Hall as [| r' rs' Hr _]; subst. apply len_nonneg. }
  assert (HR : 1 <= len particles).
  { destruct particles; [contradiction | ]. unfold len. cbn [List.length]. lia. }
  pose proof (Z.div_mod C 3 ltac:(lia)) as HdC.
  pose proof (Z.mod_pos_bound C 3 ltac:(lia)) as HmC.
  assert (Hn1 : 1 <= C / 3) by lia.
  pose proof (Z.div_mod (len particles * C) (C / 3 * 3) Hn) as Hd.
  rewrite Hmod in Hd.
  set (T := len particles * C / (C / 3 * 3)) in *.
  split; [nia | ].
  split; [nia | ].
  split; intros H; nia.
Qed.

Lemma X11_time_steps_against_rows_witness :
  exists a R C,
    load seven_columns = Done a
    /\ time_steps a = Ok 7
    /\ R = len (nonblank_rows (fst (reader (file_lines seven_columns))))
    /\ 7 * (3 * (C / 3)) = R * C
    /\ R <= 7.
Proof.
  assert (Hload : load seven_columns
                  = Done {| shape := [7; 2; 3];
                            data := map Float64 (List.concat
                              (map (map F)
                                 [ [0; 1; 2; 3; 4; 5; 6];
                                   [10; 11; 12; 13; 14; 15; 16];
                                   [20; 21; 22; 23; 24; 25; 26];
                                   [30; 31; 32; 33; 34; 35; 36];
                                   [40; 41; 42; 43; 44; 45; 46];
                                   [50; 51; 52; 53; 54; 55; 56] ]%Q)) |})
    by (vm_compute; reflexivity).
  destruct (X11_time_steps_against_rows seven_columns _ 7 Hload eq_refl)
    as [R [C [HR [_ [Heq [Hle _]]]]]].
  eexists. exists R, C.
  split; [exact Hload | ]. split; [reflexivity | ].
  split; [exact HR | ]. split; [exact Heq | exact Hle].
Defined.
